(** * CV builder: the Content Enhancer and the Document Assembler of [app.py]

    A shallow embedding of [enhance_with_groq], [create_cv_document] and of
    the "Generate" handler of [main], with the properties of the
    specification stated and proved over it.

    Python strings are Rocq strings whose characters stand for the code
    points below 256.  The effects of the program (HTTP requests, Streamlit
    messages, the download offered to the user) are recorded in a trace;
    Python exceptions are values of the monad [M]. *)

From Stdlib Require Import String Ascii List ZArith Lia Bool DecimalString.
Import ListNotations.
Local Open Scope list_scope.
Local Open Scope string_scope.
Set Warnings "-register-all".

(** ** Python strings *)

Module Py.

(** [str.isspace] on the code points below 256. *)
Definition is_space (c : ascii) : bool :=
  let n := nat_of_ascii c in
  (((9 <=? n) && (n <=? 13)) || ((28 <=? n) && (n <=? 32))
   || (n =? 133) || (n =? 160))%nat.

Fixpoint lstrip (s : string) : string :=
  match s with
  | EmptyString => EmptyString
  | String c s' => if is_space c then lstrip s' else s
  end.

Fixpoint rstrip (s : string) : string :=
  match s with
  | EmptyString => EmptyString
  | String c s' =>
      match rstrip s' with
      | EmptyString => if is_space c then EmptyString else String c EmptyString
      | r => String c r
      end
  end.

(** [s.strip()] *)
Definition strip (s : string) : string := rstrip (lstrip s).

(** Truth value of a [str]: the empty string is false. *)
Definition nonempty (s : string) : bool :=
  match s with EmptyString => false | String _ _ => true end.

(** Truth value of [d.get(key)] when the values of [d] are strings:
    a missing key gives [None], which is false. *)
Definition truthy (o : option string) : bool :=
  match o with Some s => nonempty s | None => false end.

(** [d[key]], read where [d.get(key)] is known to be true. *)
Definition item (o : option string) : string :=
  match o with Some s => s | None => "None" end.

(** [s.replace(a, b)] for one-character [a] and [b]. *)
Fixpoint replace_char (a b : ascii) (s : string) : string :=
  match s with
  | EmptyString => EmptyString
  | String c s' =>
      String (if Ascii.eqb c a then b else c) (replace_char a b s')
  end.

(** [str(n)] for an [int]. *)
Definition str_of_int (n : Z) : string := NilEmpty.string_of_int (Z.to_int n).

(** An exception object: its class and [str(e)]. *)
Record exn := Exn { exn_class : string; exn_str : string }.

Inductive result (A : Type) : Type :=
| Ok (a : A)
| Raise (e : exn).
Arguments Ok {A} a.
Arguments Raise {A} e.

(** Values of the [json] module. *)
Inductive json :=
| JNull
| JBool (b : bool)
| JInt (n : Z)
| JFloat (literal : string)
| JStr (s : string)
| JArr (items : list json)
| JObj (items : list (string * json)).

Fixpoint dict_get {A} (k : string) (d : list (string * A)) : option A :=
  match d with
  | [] => None
  | (k', v) :: d' => if String.eqb k k' then Some v else dict_get k d'
  end.

Definition type_name (v : json) : string :=
  match v with
  | JNull => "NoneType" | JBool _ => "bool" | JInt _ => "int"
  | JFloat _ => "float" | JStr _ => "str" | JArr _ => "list"
  | JObj _ => "dict"
  end.

Definition not_subscriptable (v : json) : exn :=
  Exn "TypeError" ("'" ++ type_name v ++ "' object is not subscriptable").

(** [v[k]] for a string key. *)
Definition getitem_key (v : json) (k : string) : result json :=
  match v with
  | JObj d =>
      match dict_get k d with
      | Some x => Ok x
      | None => Raise (Exn "KeyError" ("'" ++ k ++ "'"))
      end
  | JArr _ =>
      Raise (Exn "TypeError" "list indices must be integers or slices, not str")
  | JStr _ => Raise (Exn "TypeError" "string indices must be integers, not 'str'")
  | _ => Raise (not_subscriptable v)
  end.

(** [v[i]] for a non-negative integer index. *)
Definition getitem_idx (v : json) (i : nat) : result json :=
  match v with
  | JArr l =>
      match nth_error l i with
      | Some x => Ok x
      | None => Raise (Exn "IndexError" "list index out of range")
      end
  | JStr s =>
      match String.get i s with
      | Some c => Ok (JStr (String c EmptyString))
      | None => Raise (Exn "IndexError" "string index out of range")
      end
  | JObj _ => Raise (Exn "KeyError" (str_of_int (Z.of_nat i)))
  | _ => Raise (not_subscriptable v)
  end.

(** [v.strip()]: only a [str] has the method. *)
Definition call_strip (v : json) : result string :=
  match v with
  | JStr s => Ok (strip s)
  | _ => Raise (Exn "AttributeError"
                  ("'" ++ type_name v ++ "' object has no attribute 'strip'"))
  end.

End Py.

Import Py.

(** ** Effects: the trace and the monad *)

(** The arguments of [requests.post]. *)
Record request := Request {
  req_url : string;
  req_headers : list (string * string);
  req_json : json;
  req_timeout : Z
}.

(** What the program reads of a response: [status_code] and [json()]. *)
Record response := Response {
  status_code : Z;
  response_json : result json
}.

Inductive event :=
| Call (function : string)          (* a function of app.py is entered *)
| HttpPost (r : request)            (* requests.post *)
| StWarning (msg : string)          (* st.warning *)
| StError (msg : string)            (* st.error *)
| StSuccess (msg : string)          (* st.success *)
| StInfo (msg : string)             (* st.info *)
| StDownload (label : string) (data : list Byte.byte)
             (file_name mime : string).   (* st.download_button *)

Definition trace := list event.

Definition is_post (e : event) : bool :=
  match e with HttpPost _ => true | _ => false end.

Definition is_call (f : string) (e : event) : bool :=
  match e with Call g => String.eqb f g | _ => false end.

Definition is_download (e : event) : bool :=
  match e with StDownload _ _ _ _ => true | _ => false end.

(** Number of network requests recorded in a trace. *)
Definition posts (tr : trace) : nat := length (filter is_post tr).

(** Number of times function [f] was entered. *)
Definition calls (f : string) (tr : trace) : nat :=
  length (filter (is_call f) tr).

Definition downloads (tr : trace) : list event := filter is_download tr.

(** A computation reads and extends the trace and returns or raises. *)
Definition M (A : Type) : Type := trace -> result A * trace.

Definition ret {A} (a : A) : M A := fun tr => (Ok a, tr).

Definition bind {A B} (c : M A) (k : A -> M B) : M B :=
  fun tr =>
    match c tr with
    | (Ok a, tr') => k a tr'
    | (Raise e, tr') => (Raise e, tr')
    end.

Definition lift {A} (r : result A) : M A := fun tr => (r, tr).

Definition emit (e : event) : M unit := fun tr => (Ok tt, (tr ++ [e])%list).

(** [try: body  except Exception as e: handler(e)] *)
Definition try_except {A} (body : M A) (handler : exn -> M A) : M A :=
  fun tr =>
    match body tr with
    | (Ok a, tr') => (Ok a, tr')
    | (Raise e, tr') => handler e tr'
    end.

Notation "x <- c ;; k" := (bind c (fun x => k))
  (at level 61, c at next level, right associativity).
Notation "c ;;; k" := (bind c (fun _ => k))
  (at level 61, right associativity).

(** ** The Content Enhancer: [enhance_with_groq] *)

Section Enhancer.

(** The network: what [requests.post] returns or raises for a request,
    given how many requests were made before it. *)
Variable requests_post : nat -> request -> result response.

Definition http_post (r : request) : M response :=
  fun tr => (requests_post (posts tr) r, (tr ++ [HttpPost r])%list).

Definition prompts (text : string) : list (string * string) :=
  [ ("profile", "Enhance this professional profile/summary for a CV to make it more compelling and ATS-friendly while keeping it concise (2-3 sentences): " ++ text);
    ("experience", "Enhance this work experience description for a CV using action verbs, quantifiable achievements, and professional language: " ++ text);
    ("education", "Enhance this education information for a CV, making it more professional and comprehensive: " ++ text);
    ("skills", "Enhance and organize these skills for a CV, grouping them professionally and using industry-standard terminology: " ++ text);
    ("activities", "Enhance these activities and interests for a CV, focusing on professional relevance and leadership qualities: " ++ text) ].

(** [prompts.get(section_type, default)] *)
Definition prompt_for (section_type text : string) : string :=
  match dict_get section_type (prompts text) with
  | Some p => p
  | None => "Enhance this text for a professional CV: " ++ text
  end.

Definition groq_request (text section_type : string)
    (groq_api_key : option string) : request :=
  {| req_url := "https://api.groq.com/openai/v1/chat/completions";
     req_headers :=
       [ ("Authorization", "Bearer " ++ item groq_api_key);
         ("Content-Type", "application/json") ];
     req_json :=
       JObj [ ("messages",
               JArr [ JObj [ ("role", JStr "user");
                             ("content", JStr (prompt_for section_type text)) ] ]);
              ("model", JStr "llama3-8b-8192");
              ("temperature", JFloat "0.7");
              ("max_tokens", JInt 500) ];
     req_timeout := 30 |}.

(** [result['choices'][0]['message']['content']] *)
Definition payload_content (result : json) : Py.result json :=
  match getitem_key result "choices" with
  | Raise e => Raise e
  | Ok choices =>
      match getitem_idx choices 0 with
      | Raise e => Raise e
      | Ok choice =>
          match getitem_key choice "message" with
          | Raise e => Raise e
          | Ok message => getitem_key message "content"
          end
      end
  end.

Definition enhance_with_groq (text section_type : string)
    (groq_api_key : option string) : M string :=
  emit (Call "enhance_with_groq") ;;;
  if negb (truthy groq_api_key) || negb (nonempty (strip text)) then ret text
  else
    try_except
      (response <- http_post (groq_request text section_type groq_api_key) ;;
       if (status_code response =? 200)%Z then
         result <- lift (response_json response) ;;
         content <- lift (payload_content result) ;;
         lift (call_strip content)
       else
         emit (StWarning ("Groq API error: "
                          ++ str_of_int (status_code response))) ;;;
         ret text)
      (fun e =>
         emit (StWarning ("Error enhancing text: " ++ exn_str e)) ;;;
         ret text).

End Enhancer.

(** ** The python-docx objects the program builds

    python-docx is a library outside the repository.  A document is the
    list of its sections (page margins) and the list of its body
    paragraphs; a heading is a paragraph whose style is "Heading n".
    Lengths are in English Metric Units, as python-docx stores them.
    Which texts the library refuses (it raises on text that is not XML
    compatible) is the parameter [text_error]. *)

Module Docx.

Inductive alignment := CENTER.

Record run := Run {
  run_text : string;
  run_bold : option bool;
  run_size : option Z
}.

Record paragraph := Paragraph {
  p_runs : list run;
  p_style : option string;
  p_alignment : option alignment
}.

Record section := Section_ {
  top_margin : Z;
  bottom_margin : Z;
  left_margin : Z;
  right_margin : Z
}.

Record document := Doc {
  sections : list section;
  body : list paragraph
}.

(** [Inches(n/d)]: 914400 EMU to the inch. *)
Definition Inches (n d : Z) : Z := (n * 914400 / d)%Z.

(** [Document()]: the default template has one section and an empty body. *)
Definition Document : document :=
  {| sections := [ {| top_margin := Inches 1 1; bottom_margin := Inches 1 1;
                      left_margin := Inches 5 4; right_margin := Inches 5 4 |} ];
     body := [] |}.

(** Apply [f] to the last element of a list: the object added last is the
    one the program goes on to mutate. *)
Fixpoint map_last {A} (f : A -> A) (l : list A) : list A :=
  match l with
  | [] => []
  | [x] => [f x]
  | x :: l' => x :: map_last f l'
  end.

Definition on_last_paragraph (f : paragraph -> paragraph) (d : document)
  : document :=
  {| sections := sections d; body := map_last f (body d) |}.

Definition on_last_run (f : run -> run) (d : document) : document :=
  on_last_paragraph
    (fun p => {| p_runs := map_last f (p_runs p); p_style := p_style p;
                 p_alignment := p_alignment p |}) d.

Definition set_bold (b : bool) (r : run) : run :=
  {| run_text := run_text r; run_bold := Some b; run_size := run_size r |}.

Definition set_size (z : Z) (r : run) : run :=
  {| run_text := run_text r; run_bold := run_bold r; run_size := Some z |}.

Definition set_style (s : string) (p : paragraph) : paragraph :=
  {| p_runs := p_runs p; p_style := Some s; p_alignment := p_alignment p |}.

Definition set_alignment (a : alignment) (p : paragraph) : paragraph :=
  {| p_runs := p_runs p; p_style := p_style p; p_alignment := Some a |}.

Definition plain_run (text : string) : run :=
  {| run_text := text; run_bold := None; run_size := None |}.

Section Library.

Variable text_error : string -> option exn.

(** [paragraph.add_run(text)] on the paragraph added last: the run is
    appended, then its text is set when [text] is true. *)
Definition add_run (d : document) (text : string) : result document :=
  if nonempty text then
    match text_error text with
    | Some e => Raise e
    | None =>
        Ok (on_last_paragraph
              (fun p => {| p_runs := (p_runs p ++ [plain_run text])%list;
                           p_style := p_style p;
                           p_alignment := p_alignment p |}) d)
    end
  else
    Ok (on_last_paragraph
          (fun p => {| p_runs := (p_runs p ++ [plain_run text])%list;
                       p_style := p_style p;
                       p_alignment := p_alignment p |}) d).

(** [doc.add_paragraph(text='', style=None)]: a paragraph is appended to
    the body; a run is added when [text] is true; the style is set when it
    is given. *)
Definition add_paragraph (d : document) (text : string)
    (style : option string) : result document :=
  let d1 := {| sections := sections d;
               body := (body d ++ [ {| p_runs := []; p_style := None;
                                       p_alignment := None |} ])%list |} in
  match (if nonempty text then add_run d1 text else Ok d1) with
  | Raise e => Raise e
  | Ok d2 =>
      match style with
      | Some s => Ok (on_last_paragraph (set_style s) d2)
      | None => Ok d2
      end
  end.

(** [doc.add_heading(text, level)] *)
Definition add_heading (d : document) (text : string) (level : Z)
  : result document :=
  if ((0 <=? level) && (level <=? 9))%Z then
    add_paragraph d text
      (Some (if (level =? 0)%Z then "Title"
             else "Heading " ++ str_of_int level))
  else
    Raise (Exn "ValueError"
             ("level must be in range 0-9, got " ++ str_of_int level)).

End Library.

End Docx.

(** ** The Document Assembler: [create_cv_document] *)

(** An entry of [cv_data['experience']]: a dict with string values. *)
Record exp_entry := Exp {
  position : option string;
  company : option string;
  duration : option string;
  description : option string
}.

(** An entry of [cv_data['education']]. *)
Record edu_entry := Edu {
  degree : option string;
  institution : option string;
  year : option string;
  details : option string
}.

(** [cv_data]; a list that is absent behaves as the empty list. *)
Record cv_data := CV {
  name : option string;
  profile : option string;
  experience : list exp_entry;
  education : list edu_entry;
  skills : option string;
  activities : option string
}.

Section Assembler.

Variable requests_post : nat -> request -> result response.
Variable text_error : string -> option exn.

Import Docx.


(** The text of a section, sent through the enhancer when enhancement is
    on and a key is given. *)
Definition maybe_enhance (enhance_with_ai : bool) (groq_api_key : option string)
    (text section_type : string) : M string :=
  if enhance_with_ai && truthy groq_api_key then
    enhance_with_groq requests_post text section_type groq_api_key
  else ret text.

(** The body of the loop over [enumerate(cv_data['experience'])];
    [n] is [len(cv_data['experience'])]. *)
Definition add_experience (enhance_with_ai : bool)
    (groq_api_key : option string) (n i : nat) (exp : exp_entry)
    (doc : document) : M document :=
  if truthy (company exp) || truthy (position exp) || truthy (description exp)
  then
    doc <- (if truthy (position exp) && truthy (company exp) then
              doc <- lift (add_paragraph text_error doc "" None) ;;
              doc <- lift (add_run text_error doc
                             (item (position exp) ++ " - " ++ item (company exp))) ;;
              ret (on_last_run (set_bold true) doc)
            else ret doc) ;;
    doc <- (if truthy (duration exp) then
              doc <- lift (add_paragraph text_error doc (item (duration exp)) None) ;;
              ret (on_last_paragraph (set_style "List Bullet") doc)
            else ret doc) ;;
    doc <- (if truthy (description exp) then
              desc_text <- maybe_enhance enhance_with_ai groq_api_key
                             (item (description exp)) "experience" ;;
              lift (add_paragraph text_error doc desc_text None)
            else ret doc) ;;
    if (Z.of_nat i <? Z.of_nat n - 1)%Z then
      lift (add_paragraph text_error doc "" None)
    else ret doc
  else ret doc.

Fixpoint experience_loop (enhance_with_ai : bool)
    (groq_api_key : option string) (n i : nat) (l : list exp_entry)
    (doc : document) : M document :=
  match l with
  | [] => ret doc
  | exp :: l' =>
      doc <- add_experience enhance_with_ai groq_api_key n i exp doc ;;
      experience_loop enhance_with_ai groq_api_key n (S i) l' doc
  end.

(** The body of the loop over [enumerate(cv_data['education'])]. *)
Definition add_education (enhance_with_ai : bool)
    (groq_api_key : option string) (n i : nat) (edu : edu_entry)
    (doc : document) : M document :=
  if truthy (degree edu) || truthy (institution edu) || truthy (details edu)
  then
    doc <- (if truthy (degree edu) && truthy (institution edu) then
              doc <- lift (add_paragraph text_error doc "" None) ;;
              doc <- lift (add_run text_error doc
                             (item (degree edu) ++ " - " ++ item (institution edu))) ;;
              ret (on_last_run (set_bold true) doc)
            else ret doc) ;;
    doc <- (if truthy (year edu) then
              lift (add_paragraph text_error doc (item (year edu)) None)
            else ret doc) ;;
    doc <- (if truthy (details edu) then
              details_text <- maybe_enhance enhance_with_ai groq_api_key
                                (item (details edu)) "education" ;;
              lift (add_paragraph text_error doc details_text None)
            else ret doc) ;;
    if (Z.of_nat i <? Z.of_nat n - 1)%Z then
      lift (add_paragraph text_error doc "" None)
    else ret doc
  else ret doc.

Fixpoint education_loop (enhance_with_ai : bool)
    (groq_api_key : option string) (n i : nat) (l : list edu_entry)
    (doc : document) : M document :=
  match l with
  | [] => ret doc
  | edu :: l' =>
      doc <- add_education enhance_with_ai groq_api_key n i edu doc ;;
      education_loop enhance_with_ai groq_api_key n (S i) l' doc
  end.

(** [# Set document margins] *)
Definition set_margins (doc : document) : document :=
  {| sections :=
       map (fun _ => {| top_margin := Inches 1 2; bottom_margin := Inches 1 2;
                        left_margin := Inches 3 4; right_margin := Inches 3 4 |})
           (sections doc);
     body := body doc |}.

(** [# Add name as header] *)
Definition add_name (cv : cv_data) (doc : document) : M document :=
  if truthy (name cv) then
    doc <- lift (add_paragraph text_error doc "" None) ;;
    doc <- lift (add_run text_error doc (item (name cv))) ;;
    let doc := on_last_run (set_size (Inches 3 10)) doc in
    let doc := on_last_run (set_bold true) doc in
    let doc := on_last_paragraph (set_alignment CENTER) doc in
    lift (add_paragraph text_error doc "" None)
  else ret doc.

(** [# Add Profile section] *)
Definition add_profile (cv : cv_data) (enhance_with_ai : bool)
    (groq_api_key : option string) (doc : document) : M document :=
  if truthy (profile cv) then
    doc <- lift (add_heading text_error doc "Profile" 1) ;;
    profile_text <- maybe_enhance enhance_with_ai groq_api_key
                      (item (profile cv)) "profile" ;;
    doc <- lift (add_paragraph text_error doc profile_text None) ;;
    lift (add_paragraph text_error doc "" None)
  else ret doc.

(** [# Add Experience section] *)
Definition add_experience_section (cv : cv_data) (enhance_with_ai : bool)
    (groq_api_key : option string) (doc : document) : M document :=
  match experience cv with
  | [] => ret doc
  | _ :: _ =>
      doc <- lift (add_heading text_error doc "Experience" 1) ;;
      doc <- experience_loop enhance_with_ai groq_api_key
               (length (experience cv)) 0 (experience cv) doc ;;
      lift (add_paragraph text_error doc "" None)
  end.

(** [# Add Education section] *)
Definition add_education_section (cv : cv_data) (enhance_with_ai : bool)
    (groq_api_key : option string) (doc : document) : M document :=
  match education cv with
  | [] => ret doc
  | _ :: _ =>
      doc <- lift (add_heading text_error doc "Education" 1) ;;
      doc <- education_loop enhance_with_ai groq_api_key
               (length (education cv)) 0 (education cv) doc ;;
      lift (add_paragraph text_error doc "" None)
  end.

(** [# Add Skills & Abilities section] *)
Definition add_skills (cv : cv_data) (enhance_with_ai : bool)
    (groq_api_key : option string) (doc : document) : M document :=
  if truthy (skills cv) then
    doc <- lift (add_heading text_error doc "Skills & Abilities" 1) ;;
    skills_text <- maybe_enhance enhance_with_ai groq_api_key
                     (item (skills cv)) "skills" ;;
    doc <- lift (add_paragraph text_error doc skills_text None) ;;
    lift (add_paragraph text_error doc "" None)
  else ret doc.

(** [# Add Activities and Interests section] *)
Definition add_activities (cv : cv_data) (enhance_with_ai : bool)
    (groq_api_key : option string) (doc : document) : M document :=
  if truthy (activities cv) then
    doc <- lift (add_heading text_error doc "Activities and Interests" 1) ;;
    activities_text <- maybe_enhance enhance_with_ai groq_api_key
                         (item (activities cv)) "activities" ;;
    lift (add_paragraph text_error doc activities_text None)
  else ret doc.

Definition create_cv_document (cv : cv_data) (enhance_with_ai : bool)
    (groq_api_key : option string) : M document :=
  emit (Call "create_cv_document") ;;;
  let doc := set_margins Document in
  doc <- add_name cv doc ;;
  doc <- add_profile cv enhance_with_ai groq_api_key doc ;;
  doc <- add_experience_section cv enhance_with_ai groq_api_key doc ;;
  doc <- add_education_section cv enhance_with_ai groq_api_key doc ;;
  doc <- add_skills cv enhance_with_ai groq_api_key doc ;;
  add_activities cv enhance_with_ai groq_api_key doc.

End Assembler.

(** ** The "Generate Professional CV" button of [main] *)

(** The values of the widgets when the button is pressed. *)
Record form := Form {
  in_name : string;
  in_profile : string;
  in_experiences : list exp_entry;
  in_education : list edu_entry;
  in_skills : string;
  in_activities : string;
  in_groq_api_key : string;
  in_enhance_with_ai : bool
}.

(** [st.session_state.cv_data] *)
Definition cv_of_form (f : form) : cv_data :=
  {| name := Some (in_name f);
     profile := Some (in_profile f);
     experience := in_experiences f;
     education := in_education f;
     skills := Some (in_skills f);
     activities := Some (in_activities f) |}.

Definition required_fields_message : string :=
  "Please fill in all required fields (marked with *)".

(** [not name or not profile or not skills] *)
Definition required_missing (f : form) : bool :=
  negb (nonempty (in_name f)) || negb (nonempty (in_profile f))
  || negb (nonempty (in_skills f)).

Section Main.

Variable requests_post : nat -> request -> result response.
Variable text_error : string -> option exn.
(** [doc.save(bio)] followed by [bio.getvalue()]. *)
Variable docx_save : Docx.document -> result (list Byte.byte).
(** [datetime.now().strftime('%Y%m%d')] *)
Variable today : string.

(** The handler of the button.  The pictographs of the labels are kept as
    their UTF-8 bytes; the program never inspects these labels. *)
Definition on_generate (f : form) : M unit :=
  if required_missing f then emit (StError required_fields_message)
  else
    try_except
      (doc <- create_cv_document requests_post text_error (cv_of_form f)
                (in_enhance_with_ai f && nonempty (in_groq_api_key f))
                (Some (in_groq_api_key f)) ;;
       data <- lift (docx_save doc) ;;
       emit (StSuccess "✅ CV generated successfully!") ;;;
       emit (StDownload "📥 Download CV" data
               (replace_char " " "_" (in_name f) ++ "_CV_" ++ today ++ ".docx")
               "application/vnd.openxmlformats-officedocument.wordprocessingml.document") ;;;
       if in_enhance_with_ai f && nonempty (in_groq_api_key f) then
         emit (StInfo "🤖 Your CV has been enhanced with AI for better professional impact!")
       else ret tt)
      (fun e => emit (StError ("Error generating CV: " ++ exn_str e))).

End Main.

(** ** The rest of [main]: the sidebar, the two counters, the collected
    entries and the preview *)

(** [st.session_state]: the two counters, absent until the script sets
    them. *)
Record session_state := Session {
  num_experiences : option Z;
  num_education : option Z
}.

(** The values of the widgets in a run of the script; [w_text] gives the
    value of the text input with a given key. *)
Record widgets := Widgets {
  w_groq_api_key : string;
  w_enhance_with_ai : bool;
  w_name : string;
  w_profile : string;
  w_text : string -> string;
  w_skills : string;
  w_activities : string
}.

(** The buttons of the page; at most one is pressed in a run. *)
Inductive button :=
| NoButton
| AddExperience
| RemoveExperience
| AddEducation
| RemoveEducation
| GenerateCV.

(** [range(n)] *)
Definition range (n : Z) : list Z := map Z.of_nat (seq 0 (Z.to_nat n)).

(** [if 'num_...' not in st.session_state: st.session_state.num_... = 1] *)
Definition counter (o : option Z) : Z :=
  match o with Some n => n | None => 1%Z end.

(** The loop that builds [experiences] from the keyed inputs. *)
Definition collect_experiences (w : widgets) (n : Z) : list exp_entry :=
  map (fun i =>
         {| position := Some (w_text w ("pos_" ++ str_of_int i));
            company := Some (w_text w ("comp_" ++ str_of_int i));
            duration := Some (w_text w ("dur_" ++ str_of_int i));
            description := Some (w_text w ("desc_" ++ str_of_int i)) |})
      (range n).

(** The loop that builds [education]. *)
Definition collect_education (w : widgets) (n : Z) : list edu_entry :=
  map (fun i =>
         {| degree := Some (w_text w ("degree_" ++ str_of_int i));
            institution := Some (w_text w ("inst_" ++ str_of_int i));
            year := Some (w_text w ("year_" ++ str_of_int i));
            details := Some (w_text w ("edu_details_" ++ str_of_int i)) |})
      (range n).

(** What a run of the script does to the counters, and whether it ends in
    [st.experimental_rerun()] before the rest of the page is reached. *)
Definition list_buttons (s : session_state) (pressed : button)
  : session_state * bool :=
  let n := counter (num_experiences s) in
  match pressed with
  | AddExperience =>
      ({| num_experiences := Some (n + 1)%Z;
          num_education := num_education s |}, true)
  | _ =>
      if (match pressed with RemoveExperience => true | _ => false end)
         && (n >? 1)%Z
      then ({| num_experiences := Some (n - 1)%Z;
               num_education := num_education s |}, true)
      else
        let m := counter (num_education s) in
        match pressed with
        | AddEducation =>
            ({| num_experiences := Some n;
                num_education := Some (m + 1)%Z |}, true)
        | _ =>
            if (match pressed with RemoveEducation => true | _ => false end)
               && (m >? 1)%Z
            then ({| num_experiences := Some n;
                     num_education := Some (m - 1)%Z |}, true)
            else ({| num_experiences := Some n;
                     num_education := Some m |}, false)
        end
  end.

(** The session state after a sequence of runs, one button each. *)
Definition after_clicks (s : session_state) (l : list button) : session_state :=
  fold_left (fun s b => fst (list_buttons s b)) l s.

(** The widget values as the Generate handler reads them. *)
Definition form_of (s : session_state) (w : widgets) : form :=
  {| in_name := w_name w;
     in_profile := w_profile w;
     in_experiences := collect_experiences w (counter (num_experiences s));
     in_education := collect_education w (counter (num_education s));
     in_skills := w_skills w;
     in_activities := w_activities w;
     in_groq_api_key := w_groq_api_key w;
     in_enhance_with_ai := w_enhance_with_ai w |}.

(** [s.split(sep)] for a one-character separator. *)
Fixpoint split_char (sep : ascii) (s : string) : list string :=
  match s with
  | EmptyString => [EmptyString]
  | String c s' =>
      if Ascii.eqb c sep then EmptyString :: split_char sep s'
      else match split_char sep s' with
           | piece :: rest => String c piece :: rest
           | [] => [String c EmptyString]
           end
  end.

(** The entries the preview counts. *)
Definition exp_previewed (exp : exp_entry) : bool :=
  truthy (company exp) || truthy (position exp).

Definition edu_previewed (edu : edu_entry) : bool :=
  truthy (degree edu) || truthy (institution edu).

(** The lines of the "CV Preview" column, in order. *)
Definition preview (f : form) : list string :=
  ((if nonempty (in_name f) then [("**Name:** " ++ in_name f)%string] else [])
  ++ (if nonempty (in_profile f)
      then [("**Profile:** " ++ substring 0 100 (in_profile f) ++ "...")%string]
      else [])
  ++ (if existsb exp_previewed (in_experiences f)
      then [("**Experience:** "
             ++ str_of_int (Z.of_nat (length (filter exp_previewed
                                                (in_experiences f))))
             ++ " entries")%string]
      else [])
  ++ (if existsb edu_previewed (in_education f)
      then [("**Education:** "
             ++ str_of_int (Z.of_nat (length (filter edu_previewed
                                                (in_education f))))
             ++ " entries")%string]
      else [])
  ++ (if nonempty (in_skills f)
      then [("**Skills:** "
             ++ str_of_int (Z.of_nat (length (split_char "," (in_skills f))))
             ++ " skills listed")%string]
      else [])
  ++ (if nonempty (in_activities f) then ["**Activities:** Listed"%string] else []))%list.

Section Script.

Variable requests_post : nat -> request -> result response.
Variable text_error : string -> option exn.
Variable docx_save : Docx.document -> result (list Byte.byte).
Variable today : string.

(** The warning of the sidebar. *)
Definition sidebar (w : widgets) : M unit :=
  if w_enhance_with_ai w && negb (nonempty (w_groq_api_key w)) then
    emit (StWarning "Please enter your Groq API key to use AI enhancement")
  else ret tt.

(** One run of the script of [main], as far as the trace shows it: the
    sidebar, then the list buttons, which end the run when they change a
    counter, then the Generate button. *)
Definition script (s : session_state) (w : widgets) (pressed : button)
  : session_state * M unit :=
  let (s', rerun) := list_buttons s pressed in
  (s',
   sidebar w ;;;
   if rerun then ret tt
   else
     match pressed with
     | GenerateCV =>
         on_generate requests_post text_error docx_save today (form_of s' w)
     | _ => ret tt
     end).

End Script.

(** ** Vocabulary of the statements *)

Import Docx.

(** The shapes of paragraph the assembler produces. *)
Definition text_paragraph (text : string) (style : option string) : paragraph :=
  {| p_runs := if nonempty text then [plain_run text] else [];
     p_style := style; p_alignment := None |}.

Definition blank : paragraph := text_paragraph "" None.

Definition heading (text : string) : paragraph :=
  text_paragraph text (Some "Heading 1").

Definition bullet (text : string) : paragraph :=
  text_paragraph text (Some "List Bullet").

Definition bold_line (text : string) : paragraph :=
  {| p_runs := [ {| run_text := text; run_bold := Some true;
                    run_size := None |} ];
     p_style := None; p_alignment := None |}.

Definition title_paragraph (text : string) : paragraph :=
  {| p_runs := [ {| run_text := text; run_bold := Some true;
                    run_size := Some (Inches 3 10) |} ];
     p_style := None; p_alignment := Some CENTER |}.

Definition is_centered (p : paragraph) : bool :=
  match p_alignment p with Some CENTER => true | None => false end.

(** [d] with the paragraphs [ps] added at the end of its body. *)
Definition append (d : document) (ps : list paragraph) : document :=
  {| sections := sections d; body := (body d ++ ps)%list |}.

(** The per-entry emptiness checks of the two loops. *)
Definition exp_rendered (exp : exp_entry) : bool :=
  truthy (company exp) || truthy (position exp) || truthy (description exp).

Definition edu_rendered (edu : edu_entry) : bool :=
  truthy (degree edu) || truthy (institution edu) || truthy (details edu).

(** The paragraphs of one experience entry, given the text [t] that ends up
    in its description paragraph. *)
Definition exp_paragraphs (n i : nat) (exp : exp_entry) (t : string)
  : list paragraph :=
  if exp_rendered exp then
    ((if truthy (position exp) && truthy (company exp)
      then [bold_line (item (position exp) ++ " - " ++ item (company exp))]
      else [])
     ++ (if truthy (duration exp) then [bullet (item (duration exp))] else [])
     ++ (if truthy (description exp) then [text_paragraph t None] else [])
     ++ (if (Z.of_nat i <? Z.of_nat n - 1)%Z then [blank] else []))%list
  else [].

Fixpoint exps_paragraphs (n i : nat) (l : list exp_entry) (ts : list string)
  : list paragraph :=
  match l, ts with
  | exp :: l', t :: ts' =>
      (exp_paragraphs n i exp t ++ exps_paragraphs n (S i) l' ts')%list
  | _, _ => []
  end.

Definition edu_paragraphs (n i : nat) (edu : edu_entry) (t : string)
  : list paragraph :=
  if edu_rendered edu then
    ((if truthy (degree edu) && truthy (institution edu)
      then [bold_line (item (degree edu) ++ " - " ++ item (institution edu))]
      else [])
     ++ (if truthy (year edu) then [text_paragraph (item (year edu)) None]
         else [])
     ++ (if truthy (details edu) then [text_paragraph t None] else [])
     ++ (if (Z.of_nat i <? Z.of_nat n - 1)%Z then [blank] else []))%list
  else [].

Fixpoint edus_paragraphs (n i : nat) (l : list edu_entry) (ts : list string)
  : list paragraph :=
  match l, ts with
  | edu :: l', t :: ts' =>
      (edu_paragraphs n i edu t ++ edus_paragraphs n (S i) l' ts')%list
  | _, _ => []
  end.

(** The texts that end up in the enhanceable paragraphs of a document. *)
Record texts := Texts {
  profile_text : string;
  desc_texts : list string;
  details_texts : list string;
  skills_text : string;
  activities_text : string
}.

(** The body of the document of a record, given those texts. *)
Definition layout (cv : cv_data) (t : texts) : list paragraph :=
  ((if truthy (name cv) then [title_paragraph (item (name cv)); blank] else [])
   ++ (if truthy (profile cv)
       then [heading "Profile"; text_paragraph (profile_text t) None; blank]
       else [])
   ++ (match experience cv with
       | [] => []
       | _ :: _ =>
           heading "Experience"
           :: exps_paragraphs (length (experience cv)) 0 (experience cv)
                (desc_texts t) ++ [blank]
       end)
   ++ (match education cv with
       | [] => []
       | _ :: _ =>
           heading "Education"
           :: edus_paragraphs (length (education cv)) 0 (education cv)
                (details_texts t) ++ [blank]
       end)
   ++ (if truthy (skills cv)
       then [heading "Skills & Abilities";
             text_paragraph (skills_text t) None; blank]
       else [])
   ++ (if truthy (activities cv)
       then [heading "Activities and Interests";
             text_paragraph (activities_text t) None]
       else []))%list.

(** The events the assembler and the enhancer can produce. *)
Definition assembly_event (e : event) : bool :=
  match e with
  | Call _ | HttpPost _ | StWarning _ => true
  | _ => false
  end.

(** A computation only appends to the trace, and what it appends
    satisfies [P]. *)
Definition emits {A} (c : M A) (P : trace -> Prop) : Prop :=
  forall tr, exists evs, snd (c tr) = (tr ++ evs)%list /\ P evs.

(** At most [n] entries into the enhancer, nothing shown but warnings. *)
Definition enhances_at_most (n : nat) (evs : trace) : Prop :=
  forallb assembly_event evs = true /\ calls "enhance_with_groq" evs <= n.

(** A text no character of which is not white space ([""] included). *)
Definition whitespace_only (s : string) : bool :=
  forallb is_space (list_ascii_of_string s).

(** The external call failed: [requests.post] raised (network error,
    timeout), or the status is not 200, or the payload is not JSON, or it
    has no string at [choices[0].message.content]. *)
Definition call_failed (out : result response) : bool :=
  match out with
  | Raise _ => true
  | Ok resp =>
      if (status_code resp =? 200)%Z then
        match response_json resp with
        | Raise _ => true
        | Ok j =>
            match payload_content j with
            | Ok (JStr _) => false
            | _ => true
            end
        end
      else true
  end.

(** A computation that returns, whatever the trace it starts from. *)
Definition succeeds {A} (c : M A) : Prop :=
  forall tr, exists a tr', c tr = (Ok a, tr').

Definition is_heading (p : paragraph) : bool :=
  match p_style p with
  | Some s => String.eqb s "Heading 1"
  | None => false
  end.

(** The texts of the headings of a body, in order. *)
Definition heading_texts (ps : list paragraph) : list string :=
  map (fun p => String.concat "" (map run_text (p_runs p)))
      (filter is_heading ps).

(** [word in msg] *)
Definition mentions (msg word : string) : bool :=
  match String.index 0 word msg with Some _ => true | None => false end.

Definition is_warning (e : event) : bool :=
  match e with StWarning _ => true | _ => false end.

(** Number of warnings shown. *)
Definition warnings (tr : trace) : nat := length (filter is_warning tr).

(** The enhancer goes to the network for this key and text. *)
Definition sends (key : option string) (text : string) : bool :=
  truthy key && negb (whitespace_only text).

(** The texts of a record as given. *)
Definition original_texts (cv : cv_data) : texts :=
  {| profile_text := item (profile cv);
     desc_texts := map (fun exp => item (description exp)) (experience cv);
     details_texts := map (fun edu => item (details edu)) (education cv);
     skills_text := item (skills cv);
     activities_text := item (activities cv) |}.

(** [t] is what the assembler may put in place of [orig]: [orig] itself,
    or, with enhancement on, a text without surrounding white space. *)
Definition enhanced_from (on : bool) (orig t : string) : Prop :=
  t = orig \/ (on = true /\ strip t = t).

Definition texts_from (on : bool) (cv : cv_data) (t : texts) : Prop :=
  enhanced_from on (item (profile cv)) (profile_text t) /\
  Forall2 (fun exp => enhanced_from on (item (description exp)))
          (experience cv) (desc_texts t) /\
  Forall2 (fun edu => enhanced_from on (item (details edu)))
          (education cv) (details_texts t) /\
  enhanced_from on (item (skills cv)) (skills_text t) /\
  enhanced_from on (item (activities cv)) (activities_text t).

(** The number of texts of a record that go through the enhancer. *)
Definition enhanceable_count (cv : cv_data) : nat :=
  (if truthy (profile cv) then 1 else 0)
  + length (filter (fun exp => truthy (description exp)) (experience cv))
  + length (filter (fun edu => truthy (details edu)) (education cv))
  + (if truthy (skills cv) then 1 else 0)
  + (if truthy (activities cv) then 1 else 0).

(** What a stretch of a run adds to the trace when the enhancer is entered
    [k] times: [k] entries, at most as many requests. *)
Definition enhancer_delta (on : bool) (k : nat) (evs : trace) : Prop :=
  calls "enhance_with_groq" evs = (if on then k else 0) /\
  posts evs <= calls "enhance_with_groq" evs.

(** A computation that leaves the trace as it is. *)
Definition silent {A} (c : M A) : Prop := forall tr, snd (c tr) = tr.

(** The paragraphs of an entry without its spacer. *)
Definition exp_block (exp : exp_entry) (t : string) : list paragraph :=
  ((if truthy (position exp) && truthy (company exp)
    then [bold_line (item (position exp) ++ " - " ++ item (company exp))]
    else [])
   ++ (if truthy (duration exp) then [bullet (item (duration exp))] else [])
   ++ (if truthy (description exp) then [text_paragraph t None] else []))%list.

Definition edu_block (edu : edu_entry) (t : string) : list paragraph :=
  ((if truthy (degree edu) && truthy (institution edu)
    then [bold_line (item (degree edu) ++ " - " ++ item (institution edu))]
    else [])
   ++ (if truthy (year edu) then [text_paragraph (item (year edu)) None]
       else [])
   ++ (if truthy (details edu) then [text_paragraph t None] else []))%list.

(** Blocks of paragraphs with [sep] between each two. *)
Fixpoint join (sep : list paragraph) (blocks : list (list paragraph))
  : list paragraph :=
  match blocks with
  | [] => []
  | [b] => b
  | b :: rest => (b ++ sep ++ join sep rest)%list
  end.

Fixpoint count_char (c : ascii) (s : string) : nat :=
  match s with
  | EmptyString => 0
  | String a s' => (if Ascii.eqb a c then 1 else 0) + count_char c s'
  end.

(** What one entry of the experience list contributes to its section:
    nothing when it fails the emptiness check, otherwise its own lines
    (the bold line when position and company are both non-empty, the
    bullet when duration is non-empty, the description paragraph when
    description is non-empty), then possibly one spacer. *)
Definition exp_chunk (exp : exp_entry) (chunk : list paragraph) : Prop :=
  if exp_rendered exp
  then exists t sp,
         chunk = (exp_block exp t ++ sp)%list /\ (sp = [] \/ sp = [blank])
  else chunk = [].

Definition edu_chunk (edu : edu_entry) (chunk : list paragraph) : Prop :=
  if edu_rendered edu
  then exists t sp,
         chunk = (edu_block edu t ++ sp)%list /\ (sp = [] \/ sp = [blank])
  else chunk = [].


(** A computation raises nothing but what the library raised on a text
    that satisfies [P]. *)
Definition raises_on {A} (text_error : string -> option exn)
    (P : string -> Prop) (c : M A) : Prop :=
  forall tr x tr', c tr = (Raise x, tr') ->
                   exists s, P s /\ text_error s = Some x.

(** ** Concrete environments and inputs used in the examples *)

Definition accept_all (_ : string) : option exn := None.

Definition xml_error : exn :=
  Exn "ValueError"
    "All strings must be XML compatible: Unicode or ASCII, no NULL bytes or control characters".

(** A library that refuses text holding a vertical tab. *)
Definition reject_vt (s : string) : option exn :=
  if existsb (Ascii.eqb (ascii_of_nat 11)) (list_ascii_of_string s)
  then Some xml_error
  else None.

Definition net_down (_ : nat) (_ : request) : result response :=
  Raise (Exn "ConnectionError" "Connection refused").

Definition chat_completion (content : string) : json :=
  JObj [ ("choices",
          JArr [ JObj [ ("message",
                         JObj [ ("role", JStr "assistant");
                                ("content", JStr content) ]) ] ]) ].

Definition net_answers (content : string) (_ : nat) (_ : request)
  : result response :=
  Ok {| status_code := 200; response_json := Ok (chat_completion content) |}.


Definition save_ok (d : document) : result (list Byte.byte) :=
  Ok (repeat Byte.x00 (length (body d))).

Definition blank_exp : exp_entry := Exp (Some "") (Some "") (Some "") (Some "").

Definition dev_at_acme : exp_entry :=
  Exp (Some "Dev") (Some "Acme") (Some "2020-2021") (Some "").

Definition described (d : string) : exp_entry :=
  Exp (Some "Dev") (Some "Acme") (Some "2020-2021") (Some d).

Definition jane (exps : list exp_entry) : cv_data :=
  {| name := Some "Jane Doe"; profile := Some "Engineer.";
     experience := exps; education := [];
     skills := Some "Go, SQL"; activities := Some "" |}.

Definition no_skills : form :=
  {| in_name := "Jane Doe"; in_profile := "Engineer.";
     in_experiences := [blank_exp]; in_education := [];
     in_skills := ""; in_activities := "";
     in_groq_api_key := ""; in_enhance_with_ai := false |}.

Definition no_name : form :=
  {| in_name := ""; in_profile := "Engineer.";
     in_experiences := [blank_exp]; in_education := [];
     in_skills := "Go, SQL"; in_activities := "";
     in_groq_api_key := ""; in_enhance_with_ai := false |}.



(** One experience entry that has nothing but a description. *)
Definition described_only : form :=
  {| in_name := "Jane Doe"; in_profile := "Engineer.";
     in_experiences :=
       [Exp (Some "") (Some "") (Some "") (Some "Built the billing service.")];
     in_education := [];
     in_skills := "Go, SQL"; in_activities := "";
     in_groq_api_key := ""; in_enhance_with_ai := false |}.

(** A name holding a vertical tab. *)
Definition with_vertical_tab : form :=
  {| in_name := String (ascii_of_nat 11) "Jane Doe"; in_profile := "Engineer.";
     in_experiences := [blank_exp]; in_education := [];
     in_skills := "Go, SQL"; in_activities := "";
     in_groq_api_key := ""; in_enhance_with_ai := false |}.

(** A record with an empty profile, one blank experience entry and no
    activities, and its document. *)
Definition no_profile_cv : cv_data :=
  {| name := Some "Jane Doe"; profile := Some "";
     experience := [blank_exp]; education := [];
     skills := Some "Go, SQL"; activities := None |}.

Definition no_profile_document : document :=
  {| sections := sections (set_margins Document);
     body := [ title_paragraph "Jane Doe"; blank;
               heading "Experience"; blank;
               heading "Skills & Abilities";
               text_paragraph "Go, SQL" None; blank ] |}.

(** The document of [jane []] without enhancement. *)
Definition jane_document : document :=
  {| sections := sections (set_margins Document);
     body := [ title_paragraph "Jane Doe"; blank;
               heading "Profile"; text_paragraph "Engineer." None; blank;
               heading "Skills & Abilities";
               text_paragraph "Go, SQL" None; blank ] |}.

(** The document of one described entry when the service answers
    "Better." to every request. *)
Definition jane_enhanced_document : document :=
  {| sections := sections (set_margins Document);
     body := [ title_paragraph "Jane Doe"; blank;
               heading "Profile"; text_paragraph "Better." None; blank;
               heading "Experience";
               bold_line "Dev - Acme"; bullet "2020-2021";
               text_paragraph "Better." None;
               blank;
               heading "Skills & Abilities";
               text_paragraph "Better." None; blank ] |}.

(** The page as first shown, with name, profile and skills filled in and
    every keyed input left empty. *)
Definition jane_widgets : widgets :=
  {| w_groq_api_key := ""; w_enhance_with_ai := false;
     w_name := "Jane Doe"; w_profile := "Engineer.";
     w_text := fun _ => ""%string;
     w_skills := "Go, SQL"; w_activities := "" |}.

(** The same page with the enhancement box ticked and no key entered. *)
Definition ticked_without_key : widgets :=
  {| w_groq_api_key := ""; w_enhance_with_ai := true;
     w_name := "Jane Doe"; w_profile := "Engineer.";
     w_text := fun _ => ""%string;
     w_skills := "Go, SQL"; w_activities := "" |}.

(** The document of a run that returned. *)
Definition returned (r : result document * trace) : document :=
  match fst r with Ok d => d | Raise _ => Document end.

(** ** The monad and the library operations *)

Lemma bind_Ok {A B} (c : M A) (k : A -> M B) tr b tr' :
  bind c k tr = (Ok b, tr') ->
  exists a tr1, c tr = (Ok a, tr1) /\ k a tr1 = (Ok b, tr').
Proof.
  unfold bind. destruct (c tr) as [[a|e] tr1]; intros H.
  - exists a, tr1. auto.
  - discriminate.
Qed.

Lemma lift_Ok {A} (r : result A) tr a tr' :
  lift r tr = (Ok a, tr') -> r = Ok a /\ tr' = tr.
Proof. unfold lift. intros H; inversion H; auto. Qed.

Lemma ret_Ok {A} (x : A) tr a tr' :
  ret x tr = (Ok a, tr') -> a = x /\ tr' = tr.
Proof. unfold ret. intros H; inversion H; auto. Qed.

Lemma map_last_snoc {A} (f : A -> A) l x :
  map_last f (l ++ [x])%list = (l ++ [f x])%list.
Proof.
  induction l as [|y l IH]; simpl; [reflexivity|].
  rewrite IH. destruct l; reflexivity.
Qed.

Lemma append_nil d : append d [] = d.
Proof. destruct d; unfold append; simpl. now rewrite app_nil_r. Qed.

Lemma append_append d ps qs : append (append d ps) qs = append d (ps ++ qs).
Proof. unfold append; simpl. now rewrite app_assoc. Qed.

Section LibraryFacts.

Variable text_error : string -> option exn.

Lemma add_paragraph_Ok d text style d' :
  add_paragraph text_error d text style = Ok d' ->
  d' = append d [text_paragraph text style].
Proof.
  unfold add_paragraph, add_run, text_paragraph, append.
  destruct (nonempty text) eqn:Ht.
  - destruct (text_error text); [discriminate|].
    unfold on_last_paragraph; simpl. rewrite map_last_snoc; simpl.
    destruct style; intros H; inversion H; subst; clear H;
      unfold on_last_paragraph; simpl; rewrite ?map_last_snoc; reflexivity.
  - destruct style; intros H; inversion H; subst; clear H;
      unfold on_last_paragraph; simpl; rewrite ?map_last_snoc; reflexivity.
Qed.

Lemma add_heading_Ok d text d' :
  add_heading text_error d text 1 = Ok d' -> d' = append d [heading text].
Proof. unfold add_heading; simpl. apply add_paragraph_Ok. Qed.

Lemma add_run_Ok d text d' :
  add_run text_error (append d [blank]) text = Ok d' ->
  d' = append d [ {| p_runs := [plain_run text]; p_style := None;
                     p_alignment := None |} ].
Proof.
  unfold add_run.
  destruct (nonempty text); [destruct (text_error text); [discriminate|]|];
    intros H; inversion H; unfold on_last_paragraph, append; simpl;
    now rewrite map_last_snoc.
Qed.

End LibraryFacts.

(** ** The layout of the assembled document *)

Tactic Notation "inv_bind" hyp(H) "as" ident(a) ident(t) ident(H1) :=
  apply bind_Ok in H; destruct H as (a & t & H1 & H).

Ltac inv_lift H :=
  let E := fresh "E" in
  apply lift_Ok in H; destruct H as [H E]; subst.

Ltac inv_ret H :=
  let E := fresh "E" in
  apply ret_Ok in H; destruct H as [H E]; subst.

Section Layout.

Variable requests_post : nat -> request -> result response.
Variable text_error : string -> option exn.

Lemma bold_line_step (c : bool) text doc tr doc' tr' :
  (if c then
     doc <- lift (add_paragraph text_error doc "" None) ;;
     doc <- lift (add_run text_error doc text) ;;
     ret (on_last_run (set_bold true) doc)
   else ret doc) tr = (Ok doc', tr') ->
  doc' = append doc (if c then [bold_line text] else []).
Proof.
  destruct c; intros H.
  - inv_bind H as d1 tr1 H1. inv_lift H1. apply add_paragraph_Ok in H1. subst d1.
    inv_bind H as d2 tr2 H2. inv_lift H2. apply add_run_Ok in H2. subst d2.
    inv_ret H. unfold on_last_run, on_last_paragraph, append; simpl.
    now rewrite map_last_snoc.
  - inv_ret H. now rewrite append_nil.
Qed.

Lemma text_step (c : bool) (get : M string) style doc tr doc' tr' :
  (if c then
     text <- get ;; lift (add_paragraph text_error doc text style)
   else ret doc) tr = (Ok doc', tr') ->
  exists t, doc' = append doc (if c then [text_paragraph t style] else []).
Proof.
  destruct c; intros H.
  - inv_bind H as t tr1 H1. inv_lift H. apply add_paragraph_Ok in H.
    exists t. exact H.
  - inv_ret H. exists "". now rewrite append_nil.
Qed.

Lemma spacer_step (c : bool) doc tr doc' tr' :
  (if c then lift (add_paragraph text_error doc "" None) else ret doc) tr
  = (Ok doc', tr') ->
  doc' = append doc (if c then [blank] else []).
Proof.
  destruct c; intros H.
  - inv_lift H. now apply add_paragraph_Ok in H.
  - inv_ret H. now rewrite append_nil.
Qed.

Lemma add_experience_layout e k n i exp doc tr doc' tr' :
  add_experience requests_post text_error e k n i exp doc tr = (Ok doc', tr') ->
  exists t, doc' = append doc (exp_paragraphs n i exp t).
Proof.
  unfold add_experience, exp_paragraphs. fold (exp_rendered exp).
  destruct (exp_rendered exp); intros H.
  - inv_bind H as d1 tr1 H1. apply bold_line_step in H1. subst d1.
    inv_bind H as d2 tr2 H2.
    assert (d2 = append doc
                  ((if truthy (position exp) && truthy (company exp)
                    then [bold_line (item (position exp) ++ " - "
                                     ++ item (company exp))] else [])
                   ++ (if truthy (duration exp)
                       then [bullet (item (duration exp))] else []))) as ->.
    { destruct (truthy (duration exp)).
      - inv_bind H2 as d tr0 H3. inv_lift H3. apply add_paragraph_Ok in H3.
        subst d. inv_ret H2. rewrite append_append.
        unfold on_last_paragraph, append; simpl.
        now rewrite app_assoc, map_last_snoc, <- app_assoc.
      - inv_ret H2. now rewrite app_nil_r. }
    inv_bind H as d3 tr3 H3.
    apply text_step in H3. destruct H3 as [t ->].
    apply spacer_step in H. subst doc'.
    exists t. rewrite !append_append, <- !app_assoc. reflexivity.
  - inv_ret H. exists "". now rewrite append_nil.
Qed.

Lemma experience_loop_layout e k n l : forall i doc tr doc' tr',
  experience_loop requests_post text_error e k n i l doc tr = (Ok doc', tr') ->
  exists ts, length ts = length l /\
             doc' = append doc (exps_paragraphs n i l ts).
Proof.
  induction l as [|exp l IH]; intros i doc tr doc' tr' H; simpl in H.
  - inv_ret H. exists []. now rewrite append_nil.
  - inv_bind H as d1 tr1 H1.
    apply add_experience_layout in H1. destruct H1 as [t ->].
    apply IH in H. destruct H as (ts & Hlen & ->).
    exists (t :: ts). simpl. split; [now rewrite Hlen|].
    now rewrite append_append.
Qed.

Lemma add_education_layout e k n i edu doc tr doc' tr' :
  add_education requests_post text_error e k n i edu doc tr = (Ok doc', tr') ->
  exists t, doc' = append doc (edu_paragraphs n i edu t).
Proof.
  unfold add_education, edu_paragraphs. fold (edu_rendered edu).
  destruct (edu_rendered edu); intros H.
  - inv_bind H as d1 tr1 H1. apply bold_line_step in H1. subst d1.
    inv_bind H as d2 tr2 H2.
    assert (d2 = append doc
                  ((if truthy (degree edu) && truthy (institution edu)
                    then [bold_line (item (degree edu) ++ " - "
                                     ++ item (institution edu))] else [])
                   ++ (if truthy (year edu)
                       then [text_paragraph (item (year edu)) None]
                       else []))) as ->.
    { destruct (truthy (year edu)).
      - inv_lift H2. apply add_paragraph_Ok in H2. subst d2.
        now rewrite append_append.
      - inv_ret H2. now rewrite app_nil_r. }
    inv_bind H as d3 tr3 H3.
    apply text_step in H3. destruct H3 as [t ->].
    apply spacer_step in H. subst doc'.
    exists t. rewrite !append_append, <- !app_assoc. reflexivity.
  - inv_ret H. exists "". now rewrite append_nil.
Qed.

Lemma education_loop_layout e k n l : forall i doc tr doc' tr',
  education_loop requests_post text_error e k n i l doc tr = (Ok doc', tr') ->
  exists ts, length ts = length l /\
             doc' = append doc (edus_paragraphs n i l ts).
Proof.
  induction l as [|edu l IH]; intros i doc tr doc' tr' H; simpl in H.
  - inv_ret H. exists []. now rewrite append_nil.
  - inv_bind H as d1 tr1 H1.
    apply add_education_layout in H1. destruct H1 as [t ->].
    apply IH in H. destruct H as (ts & Hlen & ->).
    exists (t :: ts). simpl. split; [now rewrite Hlen|].
    now rewrite append_append.
Qed.

End Layout.

Section Assembly.

Variable requests_post : nat -> request -> result response.
Variable text_error : string -> option exn.

Lemma add_name_layout cv doc tr doc' tr' :
  add_name text_error cv doc tr = (Ok doc', tr') ->
  doc' = append doc (if truthy (name cv)
                     then [title_paragraph (item (name cv)); blank] else []).
Proof.
  unfold add_name. destruct (truthy (name cv)); intros H.
  - inv_bind H as d1 tr1 H1. inv_lift H1. apply add_paragraph_Ok in H1.
    subst d1. inv_bind H as d2 tr2 H2. inv_lift H2.
    apply add_run_Ok in H2. subst d2.
    inv_lift H. apply add_paragraph_Ok in H. subst doc'.
    unfold on_last_run, on_last_paragraph, append; simpl.
    rewrite !map_last_snoc; simpl. now rewrite <- app_assoc.
  - inv_ret H. now rewrite append_nil.
Qed.

Lemma add_profile_layout cv e k doc tr doc' tr' :
  add_profile requests_post text_error cv e k doc tr = (Ok doc', tr') ->
  exists t, doc' = append doc
    (if truthy (profile cv)
     then [heading "Profile"; text_paragraph t None; blank] else []).
Proof.
  unfold add_profile. destruct (truthy (profile cv)); intros H.
  - inv_bind H as d1 tr1 H1. inv_lift H1. apply add_heading_Ok in H1. subst d1.
    inv_bind H as t tr2 H2. inv_bind H as d3 tr3 H3.
    inv_lift H3. apply add_paragraph_Ok in H3. subst d3.
    inv_lift H. apply add_paragraph_Ok in H. subst doc'.
    exists t. now rewrite !append_append.
  - inv_ret H. exists "". now rewrite append_nil.
Qed.

Lemma add_experience_section_layout cv e k doc tr doc' tr' :
  add_experience_section requests_post text_error cv e k doc tr
  = (Ok doc', tr') ->
  exists ts, length ts = length (experience cv) /\
    doc' = append doc
      (match experience cv with
       | [] => []
       | _ :: _ =>
           heading "Experience"
           :: exps_paragraphs (length (experience cv)) 0 (experience cv) ts
              ++ [blank]
       end).
Proof.
  unfold add_experience_section.
  destruct (experience cv) as [|x l] eqn:E; intros H.
  - inv_ret H. exists []. now rewrite append_nil.
  - inv_bind H as d1 tr1 H1. inv_lift H1. apply add_heading_Ok in H1. subst d1.
    inv_bind H as d2 tr2 H2. apply experience_loop_layout in H2.
    destruct H2 as (ts & Hlen & ->).
    inv_lift H. apply add_paragraph_Ok in H. subst doc'.
    exists ts. split; [exact Hlen|]. now rewrite !append_append.
Qed.

Lemma add_education_section_layout cv e k doc tr doc' tr' :
  add_education_section requests_post text_error cv e k doc tr
  = (Ok doc', tr') ->
  exists ts, length ts = length (education cv) /\
    doc' = append doc
      (match education cv with
       | [] => []
       | _ :: _ =>
           heading "Education"
           :: edus_paragraphs (length (education cv)) 0 (education cv) ts
              ++ [blank]
       end).
Proof.
  unfold add_education_section.
  destruct (education cv) as [|x l] eqn:E; intros H.
  - inv_ret H. exists []. now rewrite append_nil.
  - inv_bind H as d1 tr1 H1. inv_lift H1. apply add_heading_Ok in H1. subst d1.
    inv_bind H as d2 tr2 H2. apply education_loop_layout in H2.
    destruct H2 as (ts & Hlen & ->).
    inv_lift H. apply add_paragraph_Ok in H. subst doc'.
    exists ts. split; [exact Hlen|]. now rewrite !append_append.
Qed.

Lemma add_skills_layout cv e k doc tr doc' tr' :
  add_skills requests_post text_error cv e k doc tr = (Ok doc', tr') ->
  exists t, doc' = append doc
    (if truthy (skills cv)
     then [heading "Skills & Abilities"; text_paragraph t None; blank]
     else []).
Proof.
  unfold add_skills. destruct (truthy (skills cv)); intros H.
  - inv_bind H as d1 tr1 H1. inv_lift H1. apply add_heading_Ok in H1. subst d1.
    inv_bind H as t tr2 H2. inv_bind H as d3 tr3 H3.
    inv_lift H3. apply add_paragraph_Ok in H3. subst d3.
    inv_lift H. apply add_paragraph_Ok in H. subst doc'.
    exists t. now rewrite !append_append.
  - inv_ret H. exists "". now rewrite append_nil.
Qed.

Lemma add_activities_layout cv e k doc tr doc' tr' :
  add_activities requests_post text_error cv e k doc tr = (Ok doc', tr') ->
  exists t, doc' = append doc
    (if truthy (activities cv)
     then [heading "Activities and Interests"; text_paragraph t None]
     else []).
Proof.
  unfold add_activities. destruct (truthy (activities cv)); intros H.
  - inv_bind H as d1 tr1 H1. inv_lift H1. apply add_heading_Ok in H1. subst d1.
    inv_bind H as t tr2 H2.
    inv_lift H. apply add_paragraph_Ok in H. subst doc'.
    exists t. now rewrite !append_append.
  - inv_ret H. exists "". now rewrite append_nil.
Qed.

(** Every document the assembler returns has the fixed margins and the
    body [layout cv t] for some texts [t]: nothing but the five kinds of
    enhanceable text is left open. *)
Theorem create_cv_document_layout cv e k tr doc tr' :
  create_cv_document requests_post text_error cv e k tr = (Ok doc, tr') ->
  exists t,
    length (desc_texts t) = length (experience cv) /\
    length (details_texts t) = length (education cv) /\
    doc = append (set_margins Document) (layout cv t).
Proof.
  unfold create_cv_document. intros H.
  inv_bind H as u tr0 H0. clear H0.
  inv_bind H as d1 tr1 H1. apply add_name_layout in H1. subst d1.
  inv_bind H as d2 tr2 H2. apply add_profile_layout in H2.
  destruct H2 as [pt ->].
  inv_bind H as d3 tr3 H3. apply add_experience_section_layout in H3.
  destruct H3 as (ets & Hets & ->).
  inv_bind H as d4 tr4 H4. apply add_education_section_layout in H4.
  destruct H4 as (dts & Hdts & ->).
  inv_bind H as d5 tr5 H5. apply add_skills_layout in H5.
  destruct H5 as [st ->].
  apply add_activities_layout in H. destruct H as [at_ ->].
  exists (Texts pt ets dts st at_). simpl.
  split; [exact Hets|]. split; [exact Hdts|].
  rewrite !append_append. unfold layout. simpl. reflexivity.
Qed.

End Assembly.

(** ** What a run adds to the trace *)

Local Open Scope list_scope.

Lemma calls_app f (a b : trace) : calls f (a ++ b) = calls f a + calls f b.
Proof. unfold calls. now rewrite filter_app, length_app. Qed.

Lemma posts_app (a b : trace) : posts (a ++ b) = posts a + posts b.
Proof. unfold posts. now rewrite filter_app, length_app. Qed.

Lemma downloads_app (a b : trace) :
  downloads (a ++ b) = (downloads a ++ downloads b)%list.
Proof. unfold downloads. now rewrite filter_app. Qed.

Lemma assembly_no_download evs :
  forallb assembly_event evs = true -> downloads evs = [].
Proof.
  induction evs as [|e evs IH]; simpl; [reflexivity|].
  intros H. apply andb_prop in H. destruct H as [He Hevs].
  destruct e; simpl in *; try discriminate; auto.
Qed.

Lemma enhances_at_most_app n m a b :
  enhances_at_most n a -> enhances_at_most m b ->
  enhances_at_most (n + m) (a ++ b).
Proof.
  intros [Ha Hn] [Hb Hm]. split.
  - rewrite forallb_app, Ha, Hb. reflexivity.
  - rewrite calls_app. lia.
Qed.

Lemma enhances_at_most_le n m evs :
  n <= m -> enhances_at_most n evs -> enhances_at_most m evs.
Proof. intros Hle [Ha Hn]. split; [exact Ha | lia]. Qed.

Lemma emits_ret {A} (x : A) : emits (ret x) (enhances_at_most 0).
Proof.
  intros tr. exists []. simpl. rewrite app_nil_r.
  repeat split. unfold calls; simpl; lia.
Qed.

Lemma emits_lift {A} (r : result A) : emits (lift r) (enhances_at_most 0).
Proof.
  intros tr. exists []. simpl. rewrite app_nil_r.
  repeat split. unfold calls; simpl; lia.
Qed.

Lemma emits_bind {A B} (c : M A) (k : A -> M B) n m :
  emits c (enhances_at_most n) ->
  (forall a, emits (k a) (enhances_at_most m)) ->
  emits (bind c k) (enhances_at_most (n + m)).
Proof.
  intros Hc Hk tr. unfold bind.
  destruct (Hc tr) as (e1 & E1 & P1).
  destruct (c tr) as [[a|x] tr1]; simpl in E1; subst tr1.
  - destruct (Hk a (tr ++ e1)%list) as (e2 & E2 & P2).
    exists (e1 ++ e2)%list. rewrite E2, app_assoc.
    split; [reflexivity|]. now apply enhances_at_most_app.
  - exists e1. split; [reflexivity|].
    apply enhances_at_most_le with n; [lia | exact P1].
Qed.

Lemma emits_try {A} (c : M A) (h : exn -> M A) n m :
  emits c (enhances_at_most n) ->
  (forall x, emits (h x) (enhances_at_most m)) ->
  emits (try_except c h) (enhances_at_most (n + m)).
Proof.
  intros Hc Hh tr. unfold try_except.
  destruct (Hc tr) as (e1 & E1 & P1).
  destruct (c tr) as [[a|x] tr1]; simpl in E1; subst tr1.
  - exists e1. split; [reflexivity|].
    apply enhances_at_most_le with n; [lia | exact P1].
  - destruct (Hh x (tr ++ e1)%list) as (e2 & E2 & P2).
    exists (e1 ++ e2)%list. rewrite E2, app_assoc.
    split; [reflexivity|]. now apply enhances_at_most_app.
Qed.

Lemma emits_le {A} (c : M A) n m :
  n <= m -> emits c (enhances_at_most n) -> emits c (enhances_at_most m).
Proof.
  intros Hle Hc tr. destruct (Hc tr) as (evs & E & P).
  exists evs. split; [exact E|]. now apply enhances_at_most_le with n.
Qed.

Lemma emits_if {A} (b : bool) (c1 c2 : M A) n :
  emits c1 (enhances_at_most n) -> emits c2 (enhances_at_most n) ->
  emits (if b then c1 else c2) (enhances_at_most n).
Proof. destruct b; auto. Qed.

Lemma emits_event e n :
  assembly_event e = true -> calls "enhance_with_groq" [e] <= n ->
  emits (emit e) (enhances_at_most n).
Proof.
  intros He Hn tr. exists [e]. split; [reflexivity|].
  split; [simpl; now rewrite He | exact Hn].
Qed.

Lemma emits_ret_n {A} (x : A) n : emits (ret x) (enhances_at_most n).
Proof. apply emits_le with 0; [lia | apply emits_ret]. Qed.

Lemma emits_lift_n {A} (r : result A) n : emits (lift r) (enhances_at_most n).
Proof. apply emits_le with 0; [lia | apply emits_lift]. Qed.

Lemma emits_bind_l {A B} (c : M A) (k : A -> M B) n :
  emits c (enhances_at_most n) ->
  (forall a, emits (k a) (enhances_at_most 0)) ->
  emits (bind c k) (enhances_at_most n).
Proof.
  intros Hc Hk. apply emits_le with (n + 0); [lia|]. now apply emits_bind.
Qed.

Lemma emits_bind_r {A B} (c : M A) (k : A -> M B) n :
  emits c (enhances_at_most 0) ->
  (forall a, emits (k a) (enhances_at_most n)) ->
  emits (bind c k) (enhances_at_most n).
Proof. intros Hc Hk. now apply (emits_bind c k 0 n). Qed.

Lemma emits_try_l {A} (c : M A) (h : exn -> M A) n :
  emits c (enhances_at_most n) ->
  (forall x, emits (h x) (enhances_at_most 0)) ->
  emits (try_except c h) (enhances_at_most n).
Proof.
  intros Hc Hh. apply emits_le with (n + 0); [lia|]. now apply emits_try.
Qed.

Lemma emits_http_post requests_post r n :
  emits (http_post requests_post r) (enhances_at_most n).
Proof.
  intros tr. exists [HttpPost r]. split; [reflexivity|].
  split; [reflexivity | unfold calls; simpl; lia].
Qed.

Ltac emits_step :=
  lazymatch goal with
  | |- emits (ret _) _ => apply emits_ret_n
  | |- emits (lift _) _ => apply emits_lift_n
  | |- emits (emit _) _ =>
      apply emits_event; [reflexivity | unfold calls; simpl; lia]
  | |- emits (http_post _ _) _ => apply emits_http_post
  | |- emits (if _ then _ else _) _ => apply emits_if; emits_step
  | |- emits (try_except _ _) _ =>
      apply emits_try_l; [emits_step | intros; emits_step]
  | |- emits (bind _ _) _ =>
      first [ solve [apply emits_bind_r; [emits_step | intros; emits_step]]
            | solve [apply emits_bind_l; [emits_step | intros; emits_step]] ]
  | |- emits _ _ => solve [auto with emits]
  end.

Create HintDb emits.

Section Traces.

Variable requests_post : nat -> request -> result response.
Variable text_error : string -> option exn.

Lemma enhance_with_groq_emits text section_type key n :
  1 <= n ->
  emits (enhance_with_groq requests_post text section_type key)
        (enhances_at_most n).
Proof.
  intros Hn. apply emits_le with 1; [exact Hn|].
  unfold enhance_with_groq. emits_step.
Qed.

Lemma maybe_enhance_emits e k text section_type n :
  1 <= n ->
  emits (maybe_enhance requests_post e k text section_type)
        (enhances_at_most n).
Proof.
  intros Hn. unfold maybe_enhance. apply emits_if.
  - now apply enhance_with_groq_emits.
  - apply emits_ret_n.
Qed.

Hint Resolve maybe_enhance_emits : emits.
Hint Extern 1 (_ <= _) => lia : emits.

Lemma add_experience_emits e k n i exp doc :
  emits (add_experience requests_post text_error e k n i exp doc)
        (enhances_at_most 1).
Proof. unfold add_experience. emits_step. Qed.

Lemma add_education_emits e k n i edu doc :
  emits (add_education requests_post text_error e k n i edu doc)
        (enhances_at_most 1).
Proof. unfold add_education. emits_step. Qed.

Lemma experience_loop_emits e k n l : forall i doc,
  emits (experience_loop requests_post text_error e k n i l doc)
        (enhances_at_most (length l)).
Proof.
  induction l as [|exp l IH]; intros i doc; simpl.
  - apply emits_ret.
  - apply (emits_bind _ _ 1 (length l)).
    + apply add_experience_emits.
    + intros d. apply IH.
Qed.

Lemma education_loop_emits e k n l : forall i doc,
  emits (education_loop requests_post text_error e k n i l doc)
        (enhances_at_most (length l)).
Proof.
  induction l as [|edu l IH]; intros i doc; simpl.
  - apply emits_ret.
  - apply (emits_bind _ _ 1 (length l)).
    + apply add_education_emits.
    + intros d. apply IH.
Qed.

Lemma add_name_emits cv doc :
  emits (add_name text_error cv doc) (enhances_at_most 0).
Proof. unfold add_name. emits_step. Qed.

Lemma add_profile_emits cv e k doc :
  emits (add_profile requests_post text_error cv e k doc)
        (enhances_at_most 1).
Proof. unfold add_profile. emits_step. Qed.

Lemma add_skills_emits cv e k doc :
  emits (add_skills requests_post text_error cv e k doc)
        (enhances_at_most 1).
Proof. unfold add_skills. emits_step. Qed.

Lemma add_activities_emits cv e k doc :
  emits (add_activities requests_post text_error cv e k doc)
        (enhances_at_most 1).
Proof. unfold add_activities. emits_step. Qed.

Lemma add_experience_section_emits cv e k doc :
  emits (add_experience_section requests_post text_error cv e k doc)
        (enhances_at_most (length (experience cv))).
Proof.
  unfold add_experience_section.
  destruct (experience cv) as [|x l] eqn:E; [apply emits_ret|].
  apply emits_bind_r; [apply emits_lift|]. intros d1.
  apply emits_bind_l; [apply experience_loop_emits|].
  intros d2. apply emits_lift.
Qed.

Lemma add_education_section_emits cv e k doc :
  emits (add_education_section requests_post text_error cv e k doc)
        (enhances_at_most (length (education cv))).
Proof.
  unfold add_education_section.
  destruct (education cv) as [|x l] eqn:E; [apply emits_ret|].
  apply emits_bind_r; [apply emits_lift|]. intros d1.
  apply emits_bind_l; [apply education_loop_emits|].
  intros d2. apply emits_lift.
Qed.

Lemma bind_emit {B} (ev : event) (k : unit -> M B) tr :
  bind (emit ev) k tr = k tt (tr ++ [ev]).
Proof. reflexivity. Qed.

(** A run of the assembler records its own entry, then at most one entry
    into the enhancer for each of profile, skills and activities and for
    each entry of the two lists, and shows nothing but warnings. *)
Lemma create_cv_document_trace cv e k tr :
  exists evs,
    snd (create_cv_document requests_post text_error cv e k tr)
    = tr ++ Call "create_cv_document" :: evs /\
    enhances_at_most (3 + length (experience cv) + length (education cv)) evs.
Proof.
  unfold create_cv_document. rewrite bind_emit. cbv beta zeta.
  match goal with
  | |- context [snd (?c (tr ++ _))] =>
      assert (emits c (enhances_at_most
                         (3 + length (experience cv) + length (education cv))))
        as Hc
  end.
  { apply emits_bind_r; [apply add_name_emits|]. intros d1.
    apply emits_le with (1 + (length (experience cv)
                              + (length (education cv) + (1 + 1)))); [lia|].
    apply emits_bind; [apply add_profile_emits|]. intros d2.
    apply emits_bind; [apply add_experience_section_emits|]. intros d3.
    apply emits_bind; [apply add_education_section_emits|]. intros d4.
    apply emits_bind; [apply add_skills_emits|]. intros d5.
    apply add_activities_emits. }
  destruct (Hc (tr ++ [Call "create_cv_document"])) as (evs & E & P).
  exists evs. rewrite E, <- app_assoc. auto.
Qed.

End Traces.

(** ** The Content Enhancer *)

Lemma lstrip_spec s :
  (whitespace_only s = true /\ lstrip s = "") \/
  (whitespace_only s = false /\
   exists c s', lstrip s = String c s' /\ is_space c = false).
Proof.
  unfold whitespace_only.
  induction s as [|c s IH]; simpl; [left; auto|].
  destruct (is_space c) eqn:Ec; simpl.
  - exact IH.
  - right. split; [reflexivity|]. exists c, s. auto.
Qed.

Lemma rstrip_nonspace c s : is_space c = false -> rstrip (String c s) <> "".
Proof.
  intros Ec. simpl. destruct (rstrip s); [rewrite Ec|]; discriminate.
Qed.

(** [strip] leaves nothing exactly of the texts that are white space only. *)
Lemma strip_empty_iff s : strip s = "" <-> whitespace_only s = true.
Proof.
  unfold strip. destruct (lstrip_spec s) as [[Hw ->]|[Hw (c & s' & -> & Ec)]].
  - simpl. tauto.
  - rewrite Hw. split; [|discriminate].
    intros H. now apply rstrip_nonspace in H.
Qed.

Lemma nonempty_strip s : nonempty (strip s) = negb (whitespace_only s).
Proof.
  destruct (whitespace_only s) eqn:Hw.
  - apply strip_empty_iff in Hw. now rewrite Hw.
  - destruct (strip s) eqn:Es; [|reflexivity].
    apply strip_empty_iff in Es. congruence.
Qed.

Section EnhancerFacts.

Variable requests_post : nat -> request -> result response.

(** What the enhancer does when it goes to the network: one request, then
    the answer decides. *)
Lemma enhance_with_groq_calls text section_type key tr :
  truthy key = true -> whitespace_only text = false ->
  enhance_with_groq requests_post text section_type key tr =
  let req := groq_request text section_type key in
  let tr1 := tr ++ [Call "enhance_with_groq"; HttpPost req] in
  match requests_post (posts tr) req with
  | Raise e =>
      (Ok text, tr1 ++ [StWarning ("Error enhancing text: " ++ exn_str e)%string])
  | Ok resp =>
      if (status_code resp =? 200)%Z then
        match response_json resp with
        | Raise e =>
            (Ok text,
             tr1 ++ [StWarning ("Error enhancing text: " ++ exn_str e)%string])
        | Ok j =>
            match payload_content j with
            | Raise e =>
                (Ok text,
                 tr1 ++ [StWarning ("Error enhancing text: " ++ exn_str e)%string])
            | Ok c =>
                match call_strip c with
                | Raise e =>
                    (Ok text,
                     tr1 ++ [StWarning
                               ("Error enhancing text: " ++ exn_str e)%string])
                | Ok s => (Ok s, tr1)
                end
            end
        end
      else
        (Ok text,
         tr1 ++ [StWarning ("Groq API error: "
                            ++ str_of_int (status_code resp))%string])
  end.
Proof.
  intros Hk Hw.
  unfold enhance_with_groq, bind, emit, try_except, http_post, lift, ret.
  rewrite Hk, nonempty_strip, Hw. simpl.
  rewrite posts_app. simpl. rewrite Nat.add_0_r.
  rewrite <- !app_assoc. simpl.
  destruct (requests_post _ _) as [resp|e]; [|reflexivity].
  destruct (status_code resp =? 200)%Z; [|now rewrite <- app_assoc].
  destruct (response_json resp) as [j|e]; [|reflexivity].
  destruct (payload_content j) as [c|e]; [|reflexivity].
  destruct (call_strip c) as [s|e]; reflexivity.
Qed.

Lemma enhance_with_groq_skips text section_type key tr :
  truthy key = false \/ whitespace_only text = true ->
  enhance_with_groq requests_post text section_type key tr =
  (Ok text, tr ++ [Call "enhance_with_groq"]).
Proof.
  intros H.
  unfold enhance_with_groq, bind, emit, ret.
  rewrite nonempty_strip.
  destruct H as [-> | ->]; simpl; [reflexivity|].
  now rewrite orb_true_r.
Qed.

(** C4: whenever the credential is absent or empty, or the text is empty or
    white space only, the enhancer returns the text it was given and no
    request goes to the network. *)
Theorem enhance_skips_without_key_or_text text section_type key tr :
  key = None \/ key = Some ""%string \/ whitespace_only text = true ->
  fst (enhance_with_groq requests_post text section_type key tr) = Ok text /\
  posts (snd (enhance_with_groq requests_post text section_type key tr))
  = posts tr.
Proof.
  intros H. rewrite enhance_with_groq_skips.
  - simpl. rewrite posts_app. split; [reflexivity|].
    unfold posts; simpl; lia.
  - destruct H as [-> | [-> | H]]; auto.
Qed.



End EnhancerFacts.

Lemma enhance_skips_without_key_or_text_witness :
  whitespace_only "   " = true /\
  fst (enhance_with_groq (net_answers "Better.") "   " "profile"
         (Some "gsk_1"%string) []) = Ok "   "%string /\
  posts (snd (enhance_with_groq (net_answers "Better.") "   " "profile"
                (Some "gsk_1"%string) [])) = posts [].
Proof.
  split; [reflexivity|].
  apply (enhance_skips_without_key_or_text (net_answers "Better.")
           "   " "profile" (Some "gsk_1"%string) []).
  right; right; reflexivity.
Defined.



(** ** The assembler returns when the library refuses no text *)

Lemma succeeds_ret {A} (x : A) : succeeds (ret x).
Proof. intros tr. exists x, tr. reflexivity. Qed.

Lemma succeeds_emit e : succeeds (emit e).
Proof. intros tr. exists tt, (tr ++ [e]). reflexivity. Qed.

Lemma succeeds_lift {A} (r : result A) :
  (exists x, r = Ok x) -> succeeds (lift r).
Proof. intros [x ->] tr. exists x, tr. reflexivity. Qed.

Lemma succeeds_bind {A B} (c : M A) (k : A -> M B) :
  succeeds c -> (forall a, succeeds (k a)) -> succeeds (bind c k).
Proof.
  intros Hc Hk tr. unfold bind.
  destruct (Hc tr) as (a & tr1 & ->). apply Hk.
Qed.

Lemma succeeds_if {A} (b : bool) (c1 c2 : M A) :
  succeeds c1 -> succeeds c2 -> succeeds (if b then c1 else c2).
Proof. destruct b; auto. Qed.

Lemma succeeds_try {A} (c : M A) (h : exn -> M A) :
  (forall e, succeeds (h e)) -> succeeds (try_except c h).
Proof.
  intros Hh tr. unfold try_except.
  destruct (c tr) as [[a|e] tr1]; [eauto | apply Hh].
Qed.

Section Success.

Variable requests_post : nat -> request -> result response.
Variable text_error : string -> option exn.
Hypothesis accepts : forall s, text_error s = None.

Lemma add_run_accepted d text : exists d', add_run text_error d text = Ok d'.
Proof.
  unfold add_run. rewrite accepts. destruct (nonempty text); eauto.
Qed.

Lemma add_paragraph_accepted d text style :
  exists d', add_paragraph text_error d text style = Ok d'.
Proof.
  unfold add_paragraph.
  destruct (nonempty text).
  - match goal with |- context [add_run _ ?x _] =>
      destruct (add_run_accepted x text) as [d2 ->] end.
    destruct style; eauto.
  - destruct style; eauto.
Qed.

Lemma add_heading_accepted d text :
  exists d', add_heading text_error d text 1 = Ok d'.
Proof. unfold add_heading; simpl. apply add_paragraph_accepted. Qed.

Lemma enhance_with_groq_succeeds text section_type key :
  succeeds (enhance_with_groq requests_post text section_type key).
Proof.
  unfold enhance_with_groq.
  apply succeeds_bind; [apply succeeds_emit|]. intros _.
  apply succeeds_if; [apply succeeds_ret|].
  apply succeeds_try. intros e.
  apply succeeds_bind; [apply succeeds_emit|]. intros _. apply succeeds_ret.
Qed.

Lemma maybe_enhance_succeeds e k text section_type :
  succeeds (maybe_enhance requests_post e k text section_type).
Proof.
  unfold maybe_enhance.
  apply succeeds_if; [apply enhance_with_groq_succeeds | apply succeeds_ret].
Qed.

Ltac succeeds_step :=
  lazymatch goal with
  | |- succeeds (ret _) => apply succeeds_ret
  | |- succeeds (emit _) => apply succeeds_emit
  | |- succeeds (lift (add_paragraph _ _ _ _)) =>
      apply succeeds_lift, add_paragraph_accepted
  | |- succeeds (lift (add_heading _ _ _ _)) =>
      apply succeeds_lift, add_heading_accepted
  | |- succeeds (lift (add_run _ _ _)) =>
      apply succeeds_lift, add_run_accepted
  | |- succeeds (maybe_enhance _ _ _ _ _) => apply maybe_enhance_succeeds
  | |- succeeds (if _ then _ else _) => apply succeeds_if; succeeds_step
  | |- succeeds (bind _ _) =>
      apply succeeds_bind; [succeeds_step | intros; succeeds_step]
  end.

Lemma experience_loop_succeeds e k n l : forall i doc,
  succeeds (experience_loop requests_post text_error e k n i l doc).
Proof.
  induction l as [|exp l IH]; intros i doc; simpl.
  - apply succeeds_ret.
  - apply succeeds_bind; [|intros d; apply IH].
    unfold add_experience. succeeds_step.
Qed.

Lemma education_loop_succeeds e k n l : forall i doc,
  succeeds (education_loop requests_post text_error e k n i l doc).
Proof.
  induction l as [|edu l IH]; intros i doc; simpl.
  - apply succeeds_ret.
  - apply succeeds_bind; [|intros d; apply IH].
    unfold add_education. succeeds_step.
Qed.

(** When the library refuses no text, the assembler returns a document. *)
Lemma create_cv_document_succeeds cv e k :
  succeeds (create_cv_document requests_post text_error cv e k).
Proof.
  unfold create_cv_document.
  apply succeeds_bind; [apply succeeds_emit|]. intros _. cbv zeta.
  apply succeeds_bind; [unfold add_name; succeeds_step|]. intros d1.
  apply succeeds_bind; [unfold add_profile; succeeds_step|]. intros d2.
  apply succeeds_bind.
  { unfold add_experience_section. destruct (experience cv) eqn:E.
    - apply succeeds_ret.
    - apply succeeds_bind; [succeeds_step|]. intros d.
      apply succeeds_bind; [apply experience_loop_succeeds|]. intros d'.
      succeeds_step. }
  intros d3.
  apply succeeds_bind.
  { unfold add_education_section. destruct (education cv) eqn:E.
    - apply succeeds_ret.
    - apply succeeds_bind; [succeeds_step|]. intros d.
      apply succeeds_bind; [apply education_loop_succeeds|]. intros d'.
      succeeds_step. }
  intros d4.
  apply succeeds_bind; [unfold add_skills; succeeds_step|]. intros d5.
  unfold add_activities; succeeds_step.
Qed.

End Success.

(** ** Which paragraphs a layout holds *)

Lemma heading_texts_app a b :
  heading_texts (a ++ b) = heading_texts a ++ heading_texts b.
Proof. unfold heading_texts. now rewrite filter_app, map_app. Qed.

Lemma heading_texts_heading s l :
  heading_texts (heading s :: l) = s :: heading_texts l.
Proof. destruct s; reflexivity. Qed.

Section Shapes.

Variable f : paragraph -> bool.
Hypothesis f_plain : forall t, f (text_paragraph t None) = false.
Hypothesis f_bold : forall t, f (bold_line t) = false.
Hypothesis f_bullet : forall t, f (bullet t) = false.

Lemma filter_exp_paragraphs n i exp t :
  filter f (exp_paragraphs n i exp t) = [].
Proof.
  unfold exp_paragraphs, blank.
  destruct (exp_rendered exp); [|reflexivity].
  destruct (truthy (position exp) && truthy (company exp));
    destruct (truthy (duration exp)); destruct (truthy (description exp));
    destruct (Z.of_nat i <? Z.of_nat n - 1)%Z;
    cbn [filter app]; rewrite ?f_plain, ?f_bold, ?f_bullet; reflexivity.
Qed.

Lemma filter_exps_paragraphs n l : forall i ts,
  filter f (exps_paragraphs n i l ts) = [].
Proof.
  induction l as [|exp l IH]; intros i [|t ts]; simpl; try reflexivity.
  now rewrite filter_app, filter_exp_paragraphs, IH.
Qed.

Lemma filter_edu_paragraphs n i edu t :
  filter f (edu_paragraphs n i edu t) = [].
Proof.
  unfold edu_paragraphs, blank.
  destruct (edu_rendered edu); [|reflexivity].
  destruct (truthy (degree edu) && truthy (institution edu));
    destruct (truthy (year edu)); destruct (truthy (details edu));
    destruct (Z.of_nat i <? Z.of_nat n - 1)%Z;
    cbn [filter app]; rewrite ?f_plain, ?f_bold, ?f_bullet; reflexivity.
Qed.

Lemma filter_edus_paragraphs n l : forall i ts,
  filter f (edus_paragraphs n i l ts) = [].
Proof.
  induction l as [|edu l IH]; intros i [|t ts]; simpl; try reflexivity.
  now rewrite filter_app, filter_edu_paragraphs, IH.
Qed.

End Shapes.

Lemma heading_texts_layout cv t :
  heading_texts (layout cv t) =
  (if truthy (profile cv) then ["Profile"%string] else [])
  ++ (match experience cv with [] => [] | _ :: _ => ["Experience"%string] end)
  ++ (match education cv with [] => [] | _ :: _ => ["Education"%string] end)
  ++ (if truthy (skills cv) then ["Skills & Abilities"%string] else [])
  ++ (if truthy (activities cv) then ["Activities and Interests"%string]
      else []).
Proof.
  unfold layout. rewrite !heading_texts_app.
  assert (Hexp : forall n l ts,
             heading_texts (exps_paragraphs n 0 l ts ++ [blank]) = []).
  { intros. rewrite heading_texts_app. unfold heading_texts at 1.
    now rewrite filter_exps_paragraphs. }
  assert (Hedu : forall n l ts,
             heading_texts (edus_paragraphs n 0 l ts ++ [blank]) = []).
  { intros. rewrite heading_texts_app. unfold heading_texts at 1.
    now rewrite filter_edus_paragraphs. }
  replace (heading_texts
             (if truthy (name cv)
              then [title_paragraph (item (name cv)); blank] else []))
    with (@nil string) by (destruct (truthy (name cv)); reflexivity).
  rewrite app_nil_l.
  f_equal; [destruct (truthy (profile cv)); reflexivity|].
  f_equal; [destruct (experience cv); [reflexivity|];
            now rewrite heading_texts_heading, Hexp|].
  f_equal; [destruct (education cv); [reflexivity|];
            now rewrite heading_texts_heading, Hedu|].
  f_equal; [destruct (truthy (skills cv)); reflexivity|].
  destruct (truthy (activities cv)); reflexivity.
Qed.

Lemma centered_layout cv t :
  filter is_centered (layout cv t) =
  if truthy (name cv) then [title_paragraph (item (name cv))] else [].
Proof.
  unfold layout. rewrite !filter_app.
  assert (Hexp : forall n l ts,
             filter is_centered (exps_paragraphs n 0 l ts ++ [blank]) = []).
  { intros. rewrite filter_app. now rewrite filter_exps_paragraphs. }
  assert (Hedu : forall n l ts,
             filter is_centered (edus_paragraphs n 0 l ts ++ [blank]) = []).
  { intros. rewrite filter_app. now rewrite filter_edus_paragraphs. }
  replace (filter is_centered
             (if truthy (profile cv)
              then [heading "Profile"; text_paragraph (profile_text t) None;
                    blank] else [])) with (@nil paragraph)
    by (destruct (truthy (profile cv)); reflexivity).
  replace (filter is_centered
             (if truthy (skills cv)
              then [heading "Skills & Abilities";
                    text_paragraph (skills_text t) None; blank] else []))
    with (@nil paragraph) by (destruct (truthy (skills cv)); reflexivity).
  replace (filter is_centered
             (if truthy (activities cv)
              then [heading "Activities and Interests";
                    text_paragraph (activities_text t) None] else []))
    with (@nil paragraph) by (destruct (truthy (activities cv)); reflexivity).
  destruct (experience cv); destruct (education cv);
    cbn [filter is_centered heading text_paragraph p_alignment];
    rewrite ?Hexp, ?Hedu, ?app_nil_r;
    destruct (truthy (name cv)); reflexivity.
Qed.

Lemma In_exps_paragraphs n exp l : forall i ts,
  length ts = length l -> In exp l ->
  exists j t, incl (exp_paragraphs n j exp t) (exps_paragraphs n i l ts).
Proof.
  induction l as [|x l IH]; intros i [|t ts] Hlen Hin; simpl in *;
    try contradiction; try discriminate.
  destruct Hin as [-> | Hin].
  - exists i, t. apply incl_appl, incl_refl.
  - destruct (IH (S i) ts) as (j & t' & Hincl); [lia | exact Hin |].
    exists j, t'. now apply incl_appr.
Qed.

Lemma In_edus_paragraphs n edu l : forall i ts,
  length ts = length l -> In edu l ->
  exists j t, incl (edu_paragraphs n j edu t) (edus_paragraphs n i l ts).
Proof.
  induction l as [|x l IH]; intros i [|t ts] Hlen Hin; simpl in *;
    try contradiction; try discriminate.
  destruct Hin as [-> | Hin].
  - exists i, t. apply incl_appl, incl_refl.
  - destruct (IH (S i) ts) as (j & t' & Hincl); [lia | exact Hin |].
    exists j, t'. now apply incl_appr.
Qed.

Lemma In_layout_experience cv t exp p :
  length (desc_texts t) = length (experience cv) ->
  In exp (experience cv) ->
  (forall j s, In p (exp_paragraphs (length (experience cv)) j exp s)) ->
  In p (layout cv t).
Proof.
  intros Hlen Hin Hp.
  destruct (In_exps_paragraphs (length (experience cv)) exp (experience cv)
              0 (desc_texts t) Hlen Hin) as (j & s & Hincl).
  unfold layout. apply in_or_app; right. apply in_or_app; right.
  apply in_or_app; left.
  destruct (experience cv) as [|x l] eqn:E; [contradiction|].
  right. apply in_or_app; left. apply Hincl, Hp.
Qed.

Lemma In_layout_education cv t edu p :
  length (details_texts t) = length (education cv) ->
  In edu (education cv) ->
  (forall j s, In p (edu_paragraphs (length (education cv)) j edu s)) ->
  In p (layout cv t).
Proof.
  intros Hlen Hin Hp.
  destruct (In_edus_paragraphs (length (education cv)) edu (education cv)
              0 (details_texts t) Hlen Hin) as (j & s & Hincl).
  unfold layout. do 3 (apply in_or_app; right).
  apply in_or_app; left.
  destruct (education cv) as [|x l] eqn:E; [contradiction|].
  right. apply in_or_app; left. apply Hincl, Hp.
Qed.

Lemma exps_paragraphs_chunks n l : forall i ts,
  length ts = length l ->
  exists chunks,
    Forall2 exp_chunk l chunks /\ exps_paragraphs n i l ts = concat chunks.
Proof.
  induction l as [|x l IH]; intros i [|t ts] Hlen; simpl in *;
    try discriminate.
  - exists []. split; [constructor | reflexivity].
  - destruct (IH (S i) ts) as (chunks & Hc & E); [lia|].
    exists (exp_paragraphs n i x t :: chunks). split; [|simpl; now rewrite E].
    constructor; [|exact Hc].
    unfold exp_chunk, exp_paragraphs, exp_block.
    destruct (exp_rendered x); [|reflexivity].
    exists t, (if (Z.of_nat i <? Z.of_nat n - 1)%Z then [blank] else []).
    split; [now rewrite <- !app_assoc|].
    destruct (Z.of_nat i <? Z.of_nat n - 1)%Z; auto.
Qed.

Lemma edus_paragraphs_chunks n l : forall i ts,
  length ts = length l ->
  exists chunks,
    Forall2 edu_chunk l chunks /\ edus_paragraphs n i l ts = concat chunks.
Proof.
  induction l as [|x l IH]; intros i [|t ts] Hlen; simpl in *;
    try discriminate.
  - exists []. split; [constructor | reflexivity].
  - destruct (IH (S i) ts) as (chunks & Hc & E); [lia|].
    exists (edu_paragraphs n i x t :: chunks). split; [|simpl; now rewrite E].
    constructor; [|exact Hc].
    unfold edu_chunk, edu_paragraphs, edu_block.
    destruct (edu_rendered x); [|reflexivity].
    exists t, (if (Z.of_nat i <? Z.of_nat n - 1)%Z then [blank] else []).
    split; [now rewrite <- !app_assoc|].
    destruct (Z.of_nat i <? Z.of_nat n - 1)%Z; auto.
Qed.

Lemma layout_starts_with_title cv t s :
  name cv = Some s -> s <> ""%string ->
  exists rest, layout cv t = title_paragraph s :: blank :: rest.
Proof.
  intros Hs Hn. unfold layout. rewrite Hs.
  destruct s as [|a s]; [congruence|]. simpl. eauto.
Qed.

(** ** The Document Assembler *)

Section AssemblerFacts.

Variable requests_post : nat -> request -> result response.
Variable text_error : string -> option exn.

(** C1, as the code has it: emptiness is tested without trimming.  The
    body of every document the assembler returns is made of six parts in
    this order, and each part is empty when its field is empty (an absent
    or empty string, an empty list) and is the heading and body of the
    field otherwise: the title and a spacer for name; heading, paragraph
    and spacer for profile; heading, entries and spacer for a non-empty
    experience list and for a non-empty education list; heading, paragraph
    and spacer for skills; heading and paragraph for activities.  Within a
    list an entry that fails its emptiness check contributes no paragraph,
    and an entry that passes contributes only the lines of its non-empty
    fields (then possibly one spacer). *)
Theorem empty_field_no_section cv e k tr doc tr' :
  create_cv_document requests_post text_error cv e k tr = (Ok doc, tr') ->
  exists title_part profile_part experience_part education_part
         skills_part activities_part,
    body doc = title_part ++ profile_part ++ experience_part
               ++ education_part ++ skills_part ++ activities_part /\
    title_part
    = (if truthy (name cv) then [title_paragraph (item (name cv)); blank]
       else []) /\
    (exists t,
        profile_part
        = if truthy (profile cv)
          then [heading "Profile"; text_paragraph t None; blank] else []) /\
    (exists chunks,
        Forall2 exp_chunk (experience cv) chunks /\
        experience_part
        = match experience cv with
          | [] => []
          | _ :: _ => heading "Experience" :: concat chunks ++ [blank]
          end) /\
    (exists chunks,
        Forall2 edu_chunk (education cv) chunks /\
        education_part
        = match education cv with
          | [] => []
          | _ :: _ => heading "Education" :: concat chunks ++ [blank]
          end) /\
    (exists t,
        skills_part
        = if truthy (skills cv)
          then [heading "Skills & Abilities"; text_paragraph t None; blank]
          else []) /\
    (exists t,
        activities_part
        = if truthy (activities cv)
          then [heading "Activities and Interests"; text_paragraph t None]
          else []).
Proof.
  intros H. apply create_cv_document_layout in H.
  destruct H as (t & Hexp & Hedu & ->). cbn [append body set_margins Document].
  rewrite app_nil_l. unfold layout.
  destruct (exps_paragraphs_chunks (length (experience cv)) (experience cv) 0
              (desc_texts t) Hexp) as (ec & Hec & Eec).
  destruct (edus_paragraphs_chunks (length (education cv)) (education cv) 0
              (details_texts t) Hedu) as (dc & Hdc & Edc).
  do 6 eexists. split; [reflexivity|].
  split; [reflexivity|].
  split; [exists (profile_text t); reflexivity|].
  split; [exists ec; split; [exact Hec | now rewrite Eec]|].
  split; [exists dc; split; [exact Hdc | now rewrite Edc]|].
  split; [exists (skills_text t); reflexivity|].
  exists (activities_text t). reflexivity.
Qed.


(** C10: whatever the enhancement setting, the credential and the answers
    of the service, a returned document starts with the title paragraph
    holding the name as given, holds for each experience entry the bold
    line "position - company" and the duration bullet as given, for each
    education entry the bold line "degree - institution" and the year as
    given; its body is the layout of the record in which only the texts of
    profile, descriptions, details, skills and activities are open. *)
Theorem frame_is_verbatim cv e k tr doc tr' :
  create_cv_document requests_post text_error cv e k tr = (Ok doc, tr') ->
  (forall s, name cv = Some s -> s <> ""%string ->
     exists rest, body doc = title_paragraph s :: blank :: rest) /\
  (forall exp p c, In exp (experience cv) ->
     position exp = Some p -> company exp = Some c ->
     p <> ""%string -> c <> ""%string ->
     In (bold_line (p ++ " - " ++ c)%string) (body doc)) /\
  (forall exp d, In exp (experience cv) -> exp_rendered exp = true ->
     duration exp = Some d -> d <> ""%string ->
     In (bullet d) (body doc)) /\
  (forall edu g i, In edu (education cv) ->
     degree edu = Some g -> institution edu = Some i ->
     g <> ""%string -> i <> ""%string ->
     In (bold_line (g ++ " - " ++ i)%string) (body doc)) /\
  (forall edu y, In edu (education cv) -> edu_rendered edu = true ->
     year edu = Some y -> y <> ""%string ->
     In (text_paragraph y None) (body doc)) /\
  (exists t, body doc = layout cv t).
Proof.
  intros H. apply create_cv_document_layout in H.
  destruct H as (t & Hexp & Hedu & ->). cbn [append body set_margins Document].
  rewrite app_nil_l.
  assert (Hne : forall s, s <> ""%string -> nonempty s = true)
    by (intros [|a s] Hs; [congruence | reflexivity]).
  repeat split.
  - intros s Hs Hn. now apply layout_starts_with_title.
  - intros exp p c Hin Hp Hc Hpn Hcn.
    apply In_layout_experience with exp; [exact Hexp | exact Hin |].
    intros j s. unfold exp_paragraphs, exp_rendered. rewrite Hp, Hc. simpl.
    rewrite (Hne p Hpn), (Hne c Hcn). simpl. now left.
  - intros exp d Hin Hr Hd Hdn.
    apply In_layout_experience with exp; [exact Hexp | exact Hin |].
    intros j s. unfold exp_paragraphs. rewrite Hr, Hd. simpl.
    rewrite (Hne d Hdn). apply in_or_app; right. now left.
  - intros edu g i Hin Hg Hi Hgn Hin'.
    apply In_layout_education with edu; [exact Hedu | exact Hin |].
    intros j s. unfold edu_paragraphs, edu_rendered. rewrite Hg, Hi. simpl.
    rewrite (Hne g Hgn), (Hne i Hin'). simpl. now left.
  - intros edu y Hin Hr Hy Hyn.
    apply In_layout_education with edu; [exact Hedu | exact Hin |].
    intros j s. unfold edu_paragraphs. rewrite Hr, Hy. simpl.
    rewrite (Hne y Hyn). apply in_or_app; right. now left.
  - exists t. reflexivity.
Qed.

End AssemblerFacts.

(** C1 as stated fails: a profile of three spaces is rendered, heading and
    paragraph. *)
Lemma whitespace_profile_is_rendered :
  whitespace_only "   " = true /\
  fst (create_cv_document net_down accept_all
         {| name := Some "Jane Doe"%string; profile := Some "   "%string;
            experience := []; education := [];
            skills := Some "Go, SQL"%string; activities := Some ""%string |}
         false None [])
  = Ok {| sections := sections (set_margins Document);
          body := [ title_paragraph "Jane Doe"; blank;
                    heading "Profile"; text_paragraph "   " None; blank;
                    heading "Skills & Abilities";
                    text_paragraph "Go, SQL" None; blank ] |}.
Proof. split; reflexivity. Qed.

Lemma empty_field_no_section_witness :
  create_cv_document net_down accept_all no_profile_cv false None []
  = (Ok no_profile_document, [Call "create_cv_document"]) /\
  exists title_part profile_part experience_part education_part
         skills_part activities_part,
    body no_profile_document
    = title_part ++ profile_part ++ experience_part
      ++ education_part ++ skills_part ++ activities_part /\
    title_part
    = (if truthy (name no_profile_cv)
       then [title_paragraph (item (name no_profile_cv)); blank] else []) /\
    (exists t,
        profile_part
        = if truthy (profile no_profile_cv)
          then [heading "Profile"; text_paragraph t None; blank] else []) /\
    (exists chunks,
        Forall2 exp_chunk (experience no_profile_cv) chunks /\
        experience_part
        = match experience no_profile_cv with
          | [] => []
          | _ :: _ => heading "Experience" :: concat chunks ++ [blank]
          end) /\
    (exists chunks,
        Forall2 edu_chunk (education no_profile_cv) chunks /\
        education_part
        = match education no_profile_cv with
          | [] => []
          | _ :: _ => heading "Education" :: concat chunks ++ [blank]
          end) /\
    (exists t,
        skills_part
        = if truthy (skills no_profile_cv)
          then [heading "Skills & Abilities"; text_paragraph t None; blank]
          else []) /\
    (exists t,
        activities_part
        = if truthy (activities no_profile_cv)
          then [heading "Activities and Interests"; text_paragraph t None]
          else []).
Proof.
  split; [reflexivity|].
  apply (empty_field_no_section net_down accept_all no_profile_cv false None
           [] no_profile_document [Call "create_cv_document"]).
  reflexivity.
Defined.


(** C6: with a described entry followed by an entry left blank, the spacer
    of the first entry is emitted although no entry is rendered after it:
    two blank paragraphs follow the last rendered entry, where the same
    record without the blank entry has one. *)
Theorem spacer_after_last_rendered_entry :
  fst (create_cv_document net_down accept_all (jane [dev_at_acme; blank_exp])
         false None [])
  = Ok {| sections := sections (set_margins Document);
          body := [ title_paragraph "Jane Doe"; blank;
                    heading "Profile"; text_paragraph "Engineer." None; blank;
                    heading "Experience";
                    bold_line "Dev - Acme"; bullet "2020-2021";
                    blank;
                    blank;
                    heading "Skills & Abilities";
                    text_paragraph "Go, SQL" None; blank ] |} /\
  fst (create_cv_document net_down accept_all (jane [dev_at_acme])
         false None [])
  = Ok {| sections := sections (set_margins Document);
          body := [ title_paragraph "Jane Doe"; blank;
                    heading "Profile"; text_paragraph "Engineer." None; blank;
                    heading "Experience";
                    bold_line "Dev - Acme"; bullet "2020-2021";
                    blank;
                    heading "Skills & Abilities";
                    text_paragraph "Go, SQL" None; blank ] |}.
Proof. split; reflexivity. Qed.

(** Two populated entries: one spacer between them, none after the second
    but the one that ends the section. *)
Example two_entries_one_spacer :
  fst (create_cv_document net_down accept_all
         (jane [dev_at_acme; described "Built the billing service."])
         false None [])
  = Ok {| sections := sections (set_margins Document);
          body := [ title_paragraph "Jane Doe"; blank;
                    heading "Profile"; text_paragraph "Engineer." None; blank;
                    heading "Experience";
                    bold_line "Dev - Acme"; bullet "2020-2021";
                    blank;
                    bold_line "Dev - Acme"; bullet "2020-2021";
                    text_paragraph "Built the billing service." None;
                    blank;
                    heading "Skills & Abilities";
                    text_paragraph "Go, SQL" None; blank ] |}.
Proof. reflexivity. Qed.

Lemma frame_is_verbatim_witness :
  fst (create_cv_document (net_answers "Better.") accept_all
         (jane [described "Built the billing service."])
         true (Some "gsk_1"%string) [])
  = Ok jane_enhanced_document /\
  In (bold_line "Dev - Acme") (body jane_enhanced_document) /\
  In (bullet "2020-2021") (body jane_enhanced_document).
Proof.
  split; [vm_compute; reflexivity|].
  destruct (frame_is_verbatim (net_answers "Better.") accept_all
              (jane [described "Built the billing service."])
              true (Some "gsk_1"%string) [] jane_enhanced_document
              (snd (create_cv_document (net_answers "Better.") accept_all
                      (jane [described "Built the billing service."])
                      true (Some "gsk_1"%string) [])))
    as (_ & Hline & Hbullet & _); [vm_compute; reflexivity|].
  split.
  - apply (Hline (described "Built the billing service.")
             "Dev"%string "Acme"%string);
      [left; reflexivity | reflexivity | reflexivity
       | discriminate | discriminate].
  - apply (Hbullet (described "Built the billing service.")
             "2020-2021"%string);
      [left; reflexivity | reflexivity | reflexivity | discriminate].
Defined.

(** ** The Generate button *)

Section MainFacts.

Variable requests_post : nat -> request -> result response.
Variable text_error : string -> option exn.
Variable docx_save : document -> result (list Byte.byte).
Variable today : string.

Set Warnings "-notation-for-abbreviation".
Local Notation generate := (on_generate requests_post text_error docx_save today).
Local Notation assemble f :=
  (create_cv_document requests_post text_error (cv_of_form f)
     (in_enhance_with_ai f && nonempty (in_groq_api_key f))
     (Some (in_groq_api_key f))).

Lemma required_missing_false f :
  required_missing f = false <->
  in_name f <> ""%string /\ in_profile f <> ""%string
  /\ in_skills f <> ""%string.
Proof.
  unfold required_missing.
  destruct (in_name f), (in_profile f), (in_skills f); simpl;
    split; try discriminate; try (intros (? & ? & ?); congruence);
    intros _; repeat split; discriminate.
Qed.

(** What the button does once the required fields are there. *)
Lemma on_generate_valid f tr :
  required_missing f = false ->
  generate f tr =
  match assemble f tr with
  | (Raise e, tr1) =>
      (Ok tt, tr1 ++ [StError ("Error generating CV: " ++ exn_str e)%string])
  | (Ok doc, tr1) =>
      match docx_save doc with
      | Raise e =>
          (Ok tt, tr1 ++ [StError ("Error generating CV: " ++ exn_str e)%string])
      | Ok data =>
          (Ok tt,
           tr1 ++ [ StSuccess "✅ CV generated successfully!";
                    StDownload "📥 Download CV" data
                      (replace_char " " "_" (in_name f) ++ "_CV_" ++ today
                       ++ ".docx")%string
                      "application/vnd.openxmlformats-officedocument.wordprocessingml.document" ]
               ++ (if in_enhance_with_ai f && nonempty (in_groq_api_key f)
                   then [StInfo "🤖 Your CV has been enhanced with AI for better professional impact!"]
                   else []))
      end
  end.
Proof.
  intros Hv. unfold on_generate. rewrite Hv.
  unfold try_except, bind at 1.
  destruct (assemble f tr) as [[doc|e] tr1]; [|reflexivity].
  unfold bind, lift, emit, ret.
  destruct (docx_save doc) as [data|e]; [|reflexivity].
  destruct (in_enhance_with_ai f && nonempty (in_groq_api_key f));
    rewrite <- !app_assoc; reflexivity.
Qed.

Lemma assemble_no_download f tr :
  downloads (snd (assemble f tr)) = downloads tr.
Proof.
  destruct (create_cv_document_trace requests_post text_error (cv_of_form f)
              (in_enhance_with_ai f && nonempty (in_groq_api_key f))
              (Some (in_groq_api_key f)) tr) as (evs & -> & Hev & _).
  rewrite downloads_app.
  change (Call "create_cv_document" :: evs)
    with ([Call "create_cv_document"] ++ evs).
  rewrite downloads_app, (assembly_no_download evs Hev). simpl.
  now rewrite app_nil_r.
Qed.

(** C3, as the code has it: when a required field (name, profile, skills)
    is empty the assembler is not entered, no request is made and nothing
    is offered for download; the error shown is one fixed message, the same
    whichever field is missing. *)
Theorem missing_required_field_rejected f tr :
  in_name f = ""%string \/ in_profile f = ""%string
  \/ in_skills f = ""%string ->
  generate f tr = (Ok tt, tr ++ [StError required_fields_message]) /\
  calls "create_cv_document" (snd (generate f tr))
  = calls "create_cv_document" tr /\
  posts (snd (generate f tr)) = posts tr /\
  downloads (snd (generate f tr)) = downloads tr.
Proof.
  intros H.
  assert (Hm : required_missing f = true).
  { unfold required_missing.
    destruct H as [-> | [-> | ->]]; simpl; rewrite ?orb_true_r; reflexivity. }
  assert (E : generate f tr = (Ok tt, tr ++ [StError required_fields_message])).
  { unfold on_generate. rewrite Hm. reflexivity. }
  rewrite E. simpl.
  rewrite calls_app, posts_app, downloads_app.
  unfold calls at 2, posts at 2. simpl.
  rewrite !Nat.add_0_r, app_nil_r. auto.
Qed.

(** C8: when the assembler raises, or saving the document does, the request
    ends with the error message carrying the text of the exception and
    nothing is offered for download. *)
Theorem generation_fails_without_artifact f tr e tr1 :
  required_missing f = false ->
  assemble f tr = (Raise e, tr1) \/
  (exists doc, assemble f tr = (Ok doc, tr1) /\ docx_save doc = Raise e) ->
  generate f tr
  = (Ok tt, tr1 ++ [StError ("Error generating CV: " ++ exn_str e)%string]) /\
  downloads (snd (generate f tr)) = downloads tr.
Proof.
  intros Hv H.
  assert (E : generate f tr
              = (Ok tt, tr1 ++ [StError ("Error generating CV: "
                                         ++ exn_str e)%string])).
  { rewrite on_generate_valid by exact Hv.
    destruct H as [-> | (doc & -> & ->)]; reflexivity. }
  assert (D : downloads (snd (generate f tr)) = downloads tr).
  { rewrite E. simpl. rewrite downloads_app. simpl. rewrite app_nil_r.
    pose proof (assemble_no_download f tr) as Hd.
    destruct H as [Ha | (doc & Ha & _)]; rewrite Ha in Hd; exact Hd. }
  split; [exact E | exact D].
Qed.

(** A download is offered only after the whole document was assembled and
    saved, and it carries the saved bytes. *)
Lemma generation_delivers_saved_bytes f tr doc tr1 data :
  required_missing f = false ->
  assemble f tr = (Ok doc, tr1) -> docx_save doc = Ok data ->
  downloads (snd (generate f tr))
  = downloads tr
    ++ [ StDownload "📥 Download CV" data
           (replace_char " " "_" (in_name f) ++ "_CV_" ++ today ++ ".docx")%string
           "application/vnd.openxmlformats-officedocument.wordprocessingml.document" ].
Proof.
  intros Hv Ha Hs. rewrite on_generate_valid by exact Hv.
  pose proof (assemble_no_download f tr) as Hd. rewrite Ha in *. rewrite Hs.
  simpl in *. rewrite !downloads_app, Hd.
  destruct (in_enhance_with_ai f && nonempty (in_groq_api_key f));
    reflexivity.
Qed.

End MainFacts.

(** C3 as stated fails: the error shown when only skills is missing is the
    one shown when only the name is missing, and it names neither. *)
Lemma validation_error_names_no_field :
  on_generate net_down accept_all save_ok "20240101" no_skills []
  = (Ok tt, [StError "Please fill in all required fields (marked with *)"]) /\
  on_generate net_down accept_all save_ok "20240101" no_name []
  = (Ok tt, [StError "Please fill in all required fields (marked with *)"]) /\
  map (mentions "Please fill in all required fields (marked with *)")
      ["skills"; "Skills"; "name"; "Name"; "profile"; "Profile"; "required"]%string
  = [false; false; false; false; false; false; true].
Proof. repeat split. Qed.

Lemma missing_required_field_rejected_witness :
  in_skills no_skills = ""%string /\
  on_generate net_down accept_all save_ok "20240101" no_skills []
  = (Ok tt, [] ++ [StError required_fields_message]).
Proof.
  split; [reflexivity|].
  apply (missing_required_field_rejected net_down accept_all save_ok
           "20240101" no_skills []).
  right; right; reflexivity.
Defined.

Lemma generation_fails_without_artifact_witness :
  create_cv_document net_down reject_vt (cv_of_form with_vertical_tab)
    false (Some ""%string) []
  = (Raise xml_error, [Call "create_cv_document"]) /\
  on_generate net_down reject_vt save_ok "20240101" with_vertical_tab []
  = (Ok tt,
     [Call "create_cv_document"]
     ++ [StError ("Error generating CV: " ++ exn_str xml_error)%string]).
Proof.
  split; [reflexivity|].
  apply (generation_fails_without_artifact net_down reject_vt save_ok
           "20240101" with_vertical_tab [] xml_error
           [Call "create_cv_document"]).
  - reflexivity.
  - left. reflexivity.
Defined.

(** * Further properties of the code *)

(** ** The enhancer: requests, warnings, the shape of the result *)

Lemma rstrip_idempotent s : rstrip (rstrip s) = rstrip s.
Proof.
  induction s as [|c s IH]; simpl; [reflexivity|].
  destruct (rstrip s) as [|a r] eqn:E.
  - destruct (is_space c) eqn:Ec; simpl; [reflexivity | now rewrite Ec].
  - simpl in *. rewrite IH. reflexivity.
Qed.

Lemma strip_idempotent s : strip (strip s) = strip s.
Proof.
  unfold strip.
  destruct (lstrip_spec s) as [[_ ->]|[_ (c & s' & -> & Ec)]];
    [reflexivity|].
  assert (H : lstrip (rstrip (String c s')) = rstrip (String c s')).
  { simpl. destruct (rstrip s'); simpl; rewrite ?Ec; simpl; now rewrite ?Ec. }
  rewrite H. apply rstrip_idempotent.
Qed.


Section EnhancerMore.

Variable requests_post : nat -> request -> result response.

(** The trace of one call of the enhancer. *)
Lemma enhance_with_groq_trace text section_type key tr :
  snd (enhance_with_groq requests_post text section_type key tr) =
  tr ++ Call "enhance_with_groq"
     :: (if sends key text then
           HttpPost (groq_request text section_type key)
           :: (if call_failed (requests_post (posts tr)
                                 (groq_request text section_type key))
               then match requests_post (posts tr)
                            (groq_request text section_type key) with
                    | Ok resp =>
                        if (status_code resp =? 200)%Z then
                          match response_json resp with
                          | Raise e =>
                              [StWarning ("Error enhancing text: "
                                          ++ exn_str e)%string]
                          | Ok j =>
                              match payload_content j with
                              | Raise e =>
                                  [StWarning ("Error enhancing text: "
                                              ++ exn_str e)%string]
                              | Ok c =>
                                  match call_strip c with
                                  | Raise e =>
                                      [StWarning ("Error enhancing text: "
                                                  ++ exn_str e)%string]
                                  | Ok _ => []
                                  end
                              end
                          end
                        else
                          [StWarning ("Groq API error: "
                                      ++ str_of_int (status_code resp))%string]
                    | Raise e =>
                        [StWarning ("Error enhancing text: "
                                    ++ exn_str e)%string]
                    end
               else [])
         else []).
Proof.
  unfold sends.
  destruct (truthy key) eqn:Hk; [destruct (whitespace_only text) eqn:Hw|].
  - rewrite enhance_with_groq_skips by auto. reflexivity.
  - rewrite enhance_with_groq_calls by assumption. cbv zeta. simpl.
    unfold call_failed.
    destruct (requests_post _ _) as [resp|e];
      [|simpl; now rewrite <- app_assoc].
    destruct (status_code resp =? 200)%Z;
      [|simpl; now rewrite <- app_assoc].
    destruct (response_json resp) as [j|e];
      [|simpl; now rewrite <- app_assoc].
    destruct (payload_content j) as [c|e];
      [|simpl; now rewrite <- app_assoc].
    destruct c; simpl; rewrite <- ?app_assoc; reflexivity.
  - rewrite enhance_with_groq_skips by auto. reflexivity.
Qed.

(** X1: a call of the enhancer makes exactly one request when the key is
    non-empty and the text is not white space only, and none otherwise;
    a failed request is not repeated. *)
Theorem enhance_makes_one_request text section_type key tr :
  posts (snd (enhance_with_groq requests_post text section_type key tr))
  = posts tr + (if sends key text then 1 else 0).
Proof.
  rewrite enhance_with_groq_trace, posts_app.
  f_equal. destruct (sends key text); [|reflexivity].
  destruct (call_failed _); [|reflexivity].
  destruct (requests_post _ _) as [resp|e]; [|reflexivity].
  destruct (status_code resp =? 200)%Z; [|reflexivity].
  destruct (response_json resp) as [j|e]; [|reflexivity].
  destruct (payload_content j) as [c|e]; [|reflexivity].
  destruct (call_strip c); reflexivity.
Qed.


Lemma enhance_with_groq_result text section_type key tr :
  exists s,
    fst (enhance_with_groq requests_post text section_type key tr) = Ok s /\
    (s = text \/ strip s = s).
Proof.
  destruct (truthy key) eqn:Hk; [destruct (whitespace_only text) eqn:Hw|].
  - rewrite enhance_with_groq_skips by auto. simpl. eauto.
  - rewrite enhance_with_groq_calls by assumption. cbv zeta.
    destruct (requests_post _ _) as [resp|e]; [|simpl; eauto].
    destruct (status_code resp =? 200)%Z; [|simpl; eauto].
    destruct (response_json resp) as [j|e]; [|simpl; eauto].
    destruct (payload_content j) as [c|e]; [|simpl; eauto].
    destruct c; simpl; eauto.
    eexists. split; [reflexivity|]. right. apply strip_idempotent.
  - rewrite enhance_with_groq_skips by auto. simpl. eauto.
Qed.

(** X3: what the enhancer returns is the text it was given or a text
    without white space at either end, never anything else. *)
Theorem enhance_returns_text_or_stripped text section_type key tr :
  exists s,
    fst (enhance_with_groq requests_post text section_type key tr) = Ok s /\
    (s = text \/ strip s = s).
Proof.
  destruct (truthy key) eqn:Hk; [destruct (whitespace_only text) eqn:Hw|].
  - rewrite enhance_with_groq_skips by auto. simpl. eauto.
  - rewrite enhance_with_groq_calls by assumption. cbv zeta.
    destruct (requests_post _ _) as [resp|e]; [|simpl; eauto].
    destruct (status_code resp =? 200)%Z; [|simpl; eauto].
    destruct (response_json resp) as [j|e]; [|simpl; eauto].
    destruct (payload_content j) as [c|e]; [|simpl; eauto].
    destruct c; simpl; eauto.
    eexists. split; [reflexivity|]. right. apply strip_idempotent.
  - rewrite enhance_with_groq_skips by auto. simpl. eauto.
Qed.

End EnhancerMore.

Lemma string_app_nil_r (s : string) : (s ++ "")%string = s.
Proof. induction s as [|c s IH]; simpl; [reflexivity | now rewrite IH]. Qed.

(** For each section type the prompt is one template followed by the
    text. *)
Lemma prompt_for_template section_type :
  (exists template, forall text,
      prompt_for section_type text = (template ++ text)%string) /\
  (~ In section_type ["profile"; "experience"; "education"; "skills";
                      "activities"]%string ->
   forall text,
     prompt_for section_type text
     = ("Enhance this text for a professional CV: " ++ text)%string).
Proof.
  unfold prompt_for, prompts; cbn [dict_get].
  repeat
    (match goal with
     | |- context [String.eqb section_type ?k] =>
         let E := fresh "E" in
         destruct (String.eqb section_type k) eqn:E;
         [ split;
           [ eexists; intros; reflexivity
           | intros H; exfalso; apply H; apply String.eqb_eq in E;
             rewrite E; cbn [In]; auto 7 ]
         | ]
     end).
  split; [eexists; intros; reflexivity | reflexivity].
Qed.

(** X4: the request the enhancer sends carries, as the content of its one
    user message, a template fixed by the section type followed by the
    text as given (the generic template for a section type other than the
    five known ones), with the key as bearer credential, the fixed model,
    temperature, length cap and a timeout of 30 seconds. *)
Theorem prompt_is_template_then_text section_type :
  exists template,
    (~ In section_type ["profile"; "experience"; "education"; "skills";
                        "activities"]%string ->
     template = "Enhance this text for a professional CV: "%string) /\
    forall requests_post text key tr,
      sends key text = true ->
      exists rest,
        snd (enhance_with_groq requests_post text section_type key tr)
        = tr ++ Call "enhance_with_groq"
             :: HttpPost
                  {| req_url := "https://api.groq.com/openai/v1/chat/completions";
                     req_headers :=
                       [ ("Authorization", "Bearer " ++ item key);
                         ("Content-Type", "application/json") ]%string;
                     req_json :=
                       JObj [ ("messages",
                               JArr [ JObj [ ("role", JStr "user");
                                             ("content",
                                              JStr (template ++ text)) ] ]);
                              ("model", JStr "llama3-8b-8192");
                              ("temperature", JFloat "0.7");
                              ("max_tokens", JInt 500) ]%string;
                     req_timeout := 30 |}
             :: rest.
Proof.
  destruct (prompt_for_template section_type) as [[template Ht] Hgen].
  exists template. split.
  - intros Hun. specialize (Hgen Hun ""%string). rewrite Ht in Hgen.
    now rewrite !string_app_nil_r in Hgen.
  - intros requests_post text key tr Hs.
    rewrite enhance_with_groq_trace, Hs.
    unfold groq_request. rewrite Ht. eexists. reflexivity.
Qed.

Lemma prompt_is_template_then_text_witness :
  exists template rest,
    template = "Enhance this text for a professional CV: "%string /\
    snd (enhance_with_groq net_down "Dutch, French" "languages"
           (Some "gsk_1"%string) [])
    = [] ++ Call "enhance_with_groq"
         :: HttpPost
              {| req_url := "https://api.groq.com/openai/v1/chat/completions";
                 req_headers :=
                   [ ("Authorization", "Bearer " ++ item (Some "gsk_1"));
                     ("Content-Type", "application/json") ]%string;
                 req_json :=
                   JObj [ ("messages",
                           JArr [ JObj [ ("role", JStr "user");
                                         ("content",
                                          JStr (template ++ "Dutch, French")) ] ]);
                          ("model", JStr "llama3-8b-8192");
                          ("temperature", JFloat "0.7");
                          ("max_tokens", JInt 500) ]%string;
                 req_timeout := 30 |}
         :: rest.
Proof.
  destruct (prompt_is_template_then_text "languages") as (template & Hg & Hr).
  destruct (Hr net_down "Dutch, French"%string (Some "gsk_1"%string) []
              eq_refl) as [rest E].
  exists template, rest. split; [|exact E].
  apply Hg. simpl. intros [H|[H|[H|[H|[H|[]]]]]]; discriminate.
Defined.

(** ** The assembler: texts, invocations and requests of a run *)

Lemma silent_ret {A} (x : A) : silent (ret x).
Proof. intros tr. reflexivity. Qed.

Lemma silent_lift {A} (r : result A) : silent (lift r).
Proof. intros tr. reflexivity. Qed.

Lemma silent_bind {A B} (c : M A) (k : A -> M B) :
  silent c -> (forall a, silent (k a)) -> silent (bind c k).
Proof.
  intros Hc Hk tr. unfold bind. specialize (Hc tr).
  destruct (c tr) as [[a|e] tr1]; simpl in Hc; subst tr1; [apply Hk|].
  reflexivity.
Qed.

Lemma silent_if {A} (b : bool) (c1 c2 : M A) :
  silent c1 -> silent c2 -> silent (if b then c1 else c2).
Proof. destruct b; auto. Qed.

Lemma silent_run {A} (c : M A) tr r tr' :
  silent c -> c tr = (r, tr') -> tr' = tr.
Proof. intros Hc H. specialize (Hc tr). rewrite H in Hc. exact Hc. Qed.

Lemma enhancer_delta_nil on : enhancer_delta on 0 [].
Proof. split; [now destruct on | reflexivity]. Qed.

Lemma enhancer_delta_app on k1 k2 e1 e2 :
  enhancer_delta on k1 e1 -> enhancer_delta on k2 e2 ->
  enhancer_delta on (k1 + k2) (e1 ++ e2).
Proof.
  intros [C1 P1] [C2 P2]. unfold enhancer_delta.
  rewrite calls_app, posts_app, C1, C2.
  split; [destruct on; reflexivity | rewrite C1, C2 in *; lia].
Qed.

Lemma Forall2_enhanced_off {A} (f : A -> string) l ts :
  Forall2 (fun x => enhanced_from false (f x)) l ts -> ts = map f l.
Proof.
  induction 1 as [|x t l ts Hx _ IH]; [reflexivity|].
  simpl. rewrite IH. destruct Hx as [-> | [Hon _]]; [reflexivity|discriminate].
Qed.

Section Runs.

Variable requests_post : nat -> request -> result response.
Variable text_error : string -> option exn.

Lemma maybe_enhance_Ok e k text section_type tr t tr' :
  maybe_enhance requests_post e k text section_type tr = (Ok t, tr') ->
  enhanced_from (e && truthy k) text t /\
  exists evs, tr' = tr ++ evs /\ enhancer_delta (e && truthy k) 1 evs.
Proof.
  unfold maybe_enhance. destruct (e && truthy k); intros H.
  - destruct (enhance_with_groq_result requests_post text section_type k tr)
      as (s & Hs & Hshape).
    pose proof (enhance_with_groq_trace requests_post text section_type k tr)
      as Htr.
    rewrite H in Hs, Htr. simpl in Hs, Htr. inversion Hs; subst s.
    split; [destruct Hshape; [left | right]; auto|].
    eexists. split; [exact Htr|].
    unfold enhancer_delta, calls, posts.
    destruct (sends k text); [|simpl; lia].
    destruct (call_failed _); [|simpl; lia].
    destruct (requests_post _ _) as [resp|x]; [|simpl; lia].
    destruct (status_code resp =? 200)%Z; [|simpl; lia].
    destruct (response_json resp) as [j|x]; [|simpl; lia].
    destruct (payload_content j) as [c|x]; [|simpl; lia].
    destruct (call_strip c); simpl; lia.
  - inv_ret H. split; [now left|].
    exists []. rewrite app_nil_r. split; [reflexivity|].
    split; reflexivity.
Qed.

Lemma maybe_enhance_silent e k text section_type :
  e && truthy k = false ->
  silent (maybe_enhance requests_post e k text section_type).
Proof. intros H. unfold maybe_enhance. rewrite H. apply silent_ret. Qed.

Ltac silent_step :=
  lazymatch goal with
  | |- silent (ret _) => apply silent_ret
  | |- silent (lift _) => apply silent_lift
  | |- silent (maybe_enhance _ _ _ _ _) =>
      apply maybe_enhance_silent; assumption
  | |- silent (if _ then _ else _) => apply silent_if; silent_step
  | |- silent (bind _ _) =>
      apply silent_bind; [silent_step | intros; silent_step]
  end.

(** A step that may enhance one text and adds it as a paragraph. *)
Lemma enhanced_text_step (c : bool) e k orig section_type style
    doc tr doc' tr' :
  (if c then
     text <- maybe_enhance requests_post e k orig section_type ;;
     lift (add_paragraph text_error doc text style)
   else ret doc) tr = (Ok doc', tr') ->
  exists t evs,
    enhanced_from (e && truthy k) orig t /\
    doc' = append doc (if c then [text_paragraph t style] else []) /\
    tr' = tr ++ evs /\
    enhancer_delta (e && truthy k) (if c then 1 else 0) evs.
Proof.
  destruct c; intros H.
  - inv_bind H as t tr1 H1. apply maybe_enhance_Ok in H1.
    destruct H1 as (Ht & evs & -> & Hd).
    inv_lift H. apply add_paragraph_Ok in H.
    exists t, evs. auto.
  - inv_ret H. exists orig, []. rewrite append_nil, app_nil_r.
    split; [now left|]. split; [reflexivity|]. split; [reflexivity|].
    apply enhancer_delta_nil.
Qed.

Lemma add_experience_run e k n i exp doc tr doc' tr' :
  add_experience requests_post text_error e k n i exp doc tr = (Ok doc', tr') ->
  exists t evs,
    enhanced_from (e && truthy k) (item (description exp)) t /\
    doc' = append doc (exp_paragraphs n i exp t) /\
    tr' = tr ++ evs /\
    enhancer_delta (e && truthy k)
      (if truthy (description exp) then 1 else 0) evs.
Proof.
  unfold add_experience, exp_paragraphs. fold (exp_rendered exp).
  destruct (exp_rendered exp) eqn:Hr; intros H.
  - inv_bind H as d1 tr1 H1.
    assert (tr1 = tr) as -> by (eapply silent_run; [|exact H1]; silent_step).
    apply bold_line_step in H1. subst d1.
    inv_bind H as d2 tr2 H2.
    assert (tr2 = tr) as -> by (eapply silent_run; [|exact H2]; silent_step).
    assert (d2 = append doc
                  ((if truthy (position exp) && truthy (company exp)
                    then [bold_line (item (position exp) ++ " - "
                                     ++ item (company exp))%string] else [])
                   ++ (if truthy (duration exp)
                       then [bullet (item (duration exp))] else []))) as ->.
    { destruct (truthy (duration exp)).
      - inv_bind H2 as d tr0 H3. inv_lift H3. apply add_paragraph_Ok in H3.
        subst d. inv_ret H2. rewrite append_append.
        unfold on_last_paragraph, append; simpl.
        now rewrite app_assoc, map_last_snoc, <- app_assoc.
      - inv_ret H2. now rewrite app_nil_r. }
    inv_bind H as d3 tr3 H3.
    apply enhanced_text_step in H3.
    destruct H3 as (t & evs & Ht & -> & -> & Hd).
    assert (tr' = tr ++ evs) as -> by (eapply silent_run; [|exact H]; silent_step).
    apply spacer_step in H. subst doc'.
    exists t, evs. split; [exact Ht|].
    split; [rewrite !append_append, <- !app_assoc; reflexivity|].
    split; [reflexivity|].
    destruct (truthy (description exp)); exact Hd.
  - inv_ret H. exists (item (description exp)), [].
    rewrite append_nil, app_nil_r.
    unfold exp_rendered in Hr.
    apply orb_false_elim in Hr. destruct Hr as [_ ->].
    split; [now left|]. split; [reflexivity|]. split; [reflexivity|].
    apply enhancer_delta_nil.
Qed.

Lemma experience_loop_run e k n l : forall i doc tr doc' tr',
  experience_loop requests_post text_error e k n i l doc tr = (Ok doc', tr') ->
  exists ts evs,
    Forall2 (fun exp => enhanced_from (e && truthy k) (item (description exp)))
            l ts /\
    doc' = append doc (exps_paragraphs n i l ts) /\
    tr' = tr ++ evs /\
    enhancer_delta (e && truthy k)
      (length (filter (fun exp => truthy (description exp)) l)) evs.
Proof.
  induction l as [|exp l IH]; intros i doc tr doc' tr' H; simpl in H.
  - inv_ret H. exists [], []. rewrite append_nil, app_nil_r.
    split; [constructor|]. split; [reflexivity|]. split; [reflexivity|].
    apply enhancer_delta_nil.
  - inv_bind H as d1 tr1 H1. apply add_experience_run in H1.
    destruct H1 as (t & e1 & Ht & -> & -> & Hd1).
    apply IH in H. destruct H as (ts & e2 & Hts & -> & -> & Hd2).
    exists (t :: ts), (e1 ++ e2). split; [now constructor|].
    split; [simpl; now rewrite append_append|].
    split; [now rewrite app_assoc|].
    simpl filter. destruct (truthy (description exp)); simpl length.
    + now apply (enhancer_delta_app _ 1).
    + now apply (enhancer_delta_app _ 0).
Qed.

Lemma add_education_run e k n i edu doc tr doc' tr' :
  add_education requests_post text_error e k n i edu doc tr = (Ok doc', tr') ->
  exists t evs,
    enhanced_from (e && truthy k) (item (details edu)) t /\
    doc' = append doc (edu_paragraphs n i edu t) /\
    tr' = tr ++ evs /\
    enhancer_delta (e && truthy k)
      (if truthy (details edu) then 1 else 0) evs.
Proof.
  unfold add_education, edu_paragraphs. fold (edu_rendered edu).
  destruct (edu_rendered edu) eqn:Hr; intros H.
  - inv_bind H as d1 tr1 H1.
    assert (tr1 = tr) as -> by (eapply silent_run; [|exact H1]; silent_step).
    apply bold_line_step in H1. subst d1.
    inv_bind H as d2 tr2 H2.
    assert (tr2 = tr) as -> by (eapply silent_run; [|exact H2]; silent_step).
    assert (d2 = append doc
                  ((if truthy (degree edu) && truthy (institution edu)
                    then [bold_line (item (degree edu) ++ " - "
                                     ++ item (institution edu))%string] else [])
                   ++ (if truthy (year edu)
                       then [text_paragraph (item (year edu)) None]
                       else []))) as ->.
    { destruct (truthy (year edu)).
      - inv_lift H2. apply add_paragraph_Ok in H2. subst d2.
        now rewrite append_append.
      - inv_ret H2. now rewrite app_nil_r. }
    inv_bind H as d3 tr3 H3.
    apply enhanced_text_step in H3.
    destruct H3 as (t & evs & Ht & -> & -> & Hd).
    assert (tr' = tr ++ evs) as -> by (eapply silent_run; [|exact H]; silent_step).
    apply spacer_step in H. subst doc'.
    exists t, evs. split; [exact Ht|].
    split; [rewrite !append_append, <- !app_assoc; reflexivity|].
    split; [reflexivity|].
    destruct (truthy (details edu)); exact Hd.
  - inv_ret H. exists (item (details edu)), [].
    rewrite append_nil, app_nil_r.
    unfold edu_rendered in Hr.
    apply orb_false_elim in Hr. destruct Hr as [_ ->].
    split; [now left|]. split; [reflexivity|]. split; [reflexivity|].
    apply enhancer_delta_nil.
Qed.

Lemma education_loop_run e k n l : forall i doc tr doc' tr',
  education_loop requests_post text_error e k n i l doc tr = (Ok doc', tr') ->
  exists ts evs,
    Forall2 (fun edu => enhanced_from (e && truthy k) (item (details edu)))
            l ts /\
    doc' = append doc (edus_paragraphs n i l ts) /\
    tr' = tr ++ evs /\
    enhancer_delta (e && truthy k)
      (length (filter (fun edu => truthy (details edu)) l)) evs.
Proof.
  induction l as [|edu l IH]; intros i doc tr doc' tr' H; simpl in H.
  - inv_ret H. exists [], []. rewrite append_nil, app_nil_r.
    split; [constructor|]. split; [reflexivity|]. split; [reflexivity|].
    apply enhancer_delta_nil.
  - inv_bind H as d1 tr1 H1. apply add_education_run in H1.
    destruct H1 as (t & e1 & Ht & -> & -> & Hd1).
    apply IH in H. destruct H as (ts & e2 & Hts & -> & -> & Hd2).
    exists (t :: ts), (e1 ++ e2). split; [now constructor|].
    split; [simpl; now rewrite append_append|].
    split; [now rewrite app_assoc|].
    simpl filter. destruct (truthy (details edu)); simpl length.
    + now apply (enhancer_delta_app _ 1).
    + now apply (enhancer_delta_app _ 0).
Qed.

Lemma add_name_run cv doc tr doc' tr' :
  add_name text_error cv doc tr = (Ok doc', tr') ->
  doc' = append doc (if truthy (name cv)
                     then [title_paragraph (item (name cv)); blank] else []) /\
  tr' = tr.
Proof.
  intros H. split; [now apply add_name_layout in H|].
  eapply silent_run; [|exact H]. unfold add_name. silent_step.
Qed.

Lemma add_profile_run cv e k doc tr doc' tr' :
  add_profile requests_post text_error cv e k doc tr = (Ok doc', tr') ->
  exists t evs,
    enhanced_from (e && truthy k) (item (profile cv)) t /\
    doc' = append doc
      (if truthy (profile cv)
       then [heading "Profile"; text_paragraph t None; blank] else []) /\
    tr' = tr ++ evs /\
    enhancer_delta (e && truthy k) (if truthy (profile cv) then 1 else 0) evs.
Proof.
  unfold add_profile. destruct (truthy (profile cv)); intros H.
  - inv_bind H as d1 tr1 H1. inv_lift H1. apply add_heading_Ok in H1. subst d1.
    inv_bind H as t tr2 H2. apply maybe_enhance_Ok in H2.
    destruct H2 as (Ht & evs & -> & Hd).
    inv_bind H as d3 tr3 H3.
    inv_lift H3. apply add_paragraph_Ok in H3. subst d3.
    inv_lift H. apply add_paragraph_Ok in H. subst doc'.
    exists t, evs. rewrite !append_append. auto.
  - inv_ret H. exists (item (profile cv)), [].
    rewrite append_nil, app_nil_r.
    split; [now left|]. split; [reflexivity|]. split; [reflexivity|].
    apply enhancer_delta_nil.
Qed.

Lemma add_skills_run cv e k doc tr doc' tr' :
  add_skills requests_post text_error cv e k doc tr = (Ok doc', tr') ->
  exists t evs,
    enhanced_from (e && truthy k) (item (skills cv)) t /\
    doc' = append doc
      (if truthy (skills cv)
       then [heading "Skills & Abilities"; text_paragraph t None; blank]
       else []) /\
    tr' = tr ++ evs /\
    enhancer_delta (e && truthy k) (if truthy (skills cv) then 1 else 0) evs.
Proof.
  unfold add_skills. destruct (truthy (skills cv)); intros H.
  - inv_bind H as d1 tr1 H1. inv_lift H1. apply add_heading_Ok in H1. subst d1.
    inv_bind H as t tr2 H2. apply maybe_enhance_Ok in H2.
    destruct H2 as (Ht & evs & -> & Hd).
    inv_bind H as d3 tr3 H3.
    inv_lift H3. apply add_paragraph_Ok in H3. subst d3.
    inv_lift H. apply add_paragraph_Ok in H. subst doc'.
    exists t, evs. rewrite !append_append. auto.
  - inv_ret H. exists (item (skills cv)), [].
    rewrite append_nil, app_nil_r.
    split; [now left|]. split; [reflexivity|]. split; [reflexivity|].
    apply enhancer_delta_nil.
Qed.

Lemma add_activities_run cv e k doc tr doc' tr' :
  add_activities requests_post text_error cv e k doc tr = (Ok doc', tr') ->
  exists t evs,
    enhanced_from (e && truthy k) (item (activities cv)) t /\
    doc' = append doc
      (if truthy (activities cv)
       then [heading "Activities and Interests"; text_paragraph t None]
       else []) /\
    tr' = tr ++ evs /\
    enhancer_delta (e && truthy k)
      (if truthy (activities cv) then 1 else 0) evs.
Proof.
  unfold add_activities. destruct (truthy (activities cv)); intros H.
  - inv_bind H as d1 tr1 H1. inv_lift H1. apply add_heading_Ok in H1. subst d1.
    inv_bind H as t tr2 H2. apply maybe_enhance_Ok in H2.
    destruct H2 as (Ht & evs & -> & Hd).
    inv_lift H. apply add_paragraph_Ok in H. subst doc'.
    exists t, evs. rewrite !append_append. auto.
  - inv_ret H. exists (item (activities cv)), [].
    rewrite append_nil, app_nil_r.
    split; [now left|]. split; [reflexivity|]. split; [reflexivity|].
    apply enhancer_delta_nil.
Qed.

Lemma add_experience_section_run cv e k doc tr doc' tr' :
  add_experience_section requests_post text_error cv e k doc tr
  = (Ok doc', tr') ->
  exists ts evs,
    Forall2 (fun exp => enhanced_from (e && truthy k) (item (description exp)))
            (experience cv) ts /\
    doc' = append doc
      (match experience cv with
       | [] => []
       | _ :: _ =>
           heading "Experience"
           :: exps_paragraphs (length (experience cv)) 0 (experience cv) ts
              ++ [blank]
       end) /\
    tr' = tr ++ evs /\
    enhancer_delta (e && truthy k)
      (length (filter (fun exp => truthy (description exp)) (experience cv)))
      evs.
Proof.
  unfold add_experience_section.
  destruct (experience cv) as [|x l] eqn:E; intros H.
  - inv_ret H. exists [], []. rewrite append_nil, app_nil_r.
    split; [constructor|]. split; [reflexivity|]. split; [reflexivity|].
    apply enhancer_delta_nil.
  - inv_bind H as d1 tr1 H1. inv_lift H1. apply add_heading_Ok in H1. subst d1.
    inv_bind H as d2 tr2 H2. apply experience_loop_run in H2.
    destruct H2 as (ts & evs & Hts & -> & -> & Hd).
    inv_lift H. apply add_paragraph_Ok in H. subst doc'.
    exists ts, evs. rewrite !append_append. auto.
Qed.

Lemma add_education_section_run cv e k doc tr doc' tr' :
  add_education_section requests_post text_error cv e k doc tr
  = (Ok doc', tr') ->
  exists ts evs,
    Forall2 (fun edu => enhanced_from (e && truthy k) (item (details edu)))
            (education cv) ts /\
    doc' = append doc
      (match education cv with
       | [] => []
       | _ :: _ =>
           heading "Education"
           :: edus_paragraphs (length (education cv)) 0 (education cv) ts
              ++ [blank]
       end) /\
    tr' = tr ++ evs /\
    enhancer_delta (e && truthy k)
      (length (filter (fun edu => truthy (details edu)) (education cv)))
      evs.
Proof.
  unfold add_education_section.
  destruct (education cv) as [|x l] eqn:E; intros H.
  - inv_ret H. exists [], []. rewrite append_nil, app_nil_r.
    split; [constructor|]. split; [reflexivity|]. split; [reflexivity|].
    apply enhancer_delta_nil.
  - inv_bind H as d1 tr1 H1. inv_lift H1. apply add_heading_Ok in H1. subst d1.
    inv_bind H as d2 tr2 H2. apply education_loop_run in H2.
    destruct H2 as (ts & evs & Hts & -> & -> & Hd).
    inv_lift H. apply add_paragraph_Ok in H. subst doc'.
    exists ts, evs. rewrite !append_append. auto.
Qed.

(** A run of the assembler that returns: the document, the texts in it and
    what the run added to the trace. *)
Lemma create_cv_document_run cv e k tr doc tr' :
  create_cv_document requests_post text_error cv e k tr = (Ok doc, tr') ->
  exists t evs,
    texts_from (e && truthy k) cv t /\
    doc = append (set_margins Document) (layout cv t) /\
    tr' = tr ++ Call "create_cv_document" :: evs /\
    enhancer_delta (e && truthy k) (enhanceable_count cv) evs.
Proof.
  unfold create_cv_document. rewrite bind_emit. cbv zeta. intros H.
  inv_bind H as d1 tr1 H1. apply add_name_run in H1. destruct H1 as [-> ->].
  inv_bind H as d2 tr2 H2. apply add_profile_run in H2.
  destruct H2 as (pt & e2 & Hpt & -> & -> & D2).
  inv_bind H as d3 tr3 H3. apply add_experience_section_run in H3.
  destruct H3 as (ets & e3 & Hets & -> & -> & D3).
  inv_bind H as d4 tr4 H4. apply add_education_section_run in H4.
  destruct H4 as (dts & e4 & Hdts & -> & -> & D4).
  inv_bind H as d5 tr5 H5. apply add_skills_run in H5.
  destruct H5 as (st & e5 & Hst & -> & -> & D5).
  apply add_activities_run in H.
  destruct H as (at_ & e6 & Hat & -> & -> & D6).
  exists (Texts pt ets dts st at_), (e2 ++ e3 ++ e4 ++ e5 ++ e6).
  split; [repeat split; assumption|].
  split; [rewrite !append_append; reflexivity|].
  split; [rewrite <- !app_assoc; reflexivity|].
  unfold enhanceable_count.
  pose proof (enhancer_delta_app _ _ _ _ _ D5 D6) as D56.
  pose proof (enhancer_delta_app _ _ _ _ _ D4 D56) as D456.
  pose proof (enhancer_delta_app _ _ _ _ _ D3 D456) as D3456.
  pose proof (enhancer_delta_app _ _ _ _ _ D2 D3456) as D.
  match goal with
  | D : enhancer_delta _ ?a _ |- enhancer_delta _ ?b _ =>
      replace b with a by lia; exact D
  end.
Qed.

(** With enhancement off a run of the assembler adds nothing to the trace
    but its own entry, whether it returns or raises. *)
Lemma create_cv_document_off_trace cv e k tr :
  e && truthy k = false ->
  snd (create_cv_document requests_post text_error cv e k tr)
  = tr ++ [Call "create_cv_document"].
Proof.
  intros Hoff.
  unfold create_cv_document. rewrite bind_emit. cbv zeta.
  match goal with
  | |- snd (?c _) = _ => assert (Hs : silent c)
  end.
  { apply silent_bind; [unfold add_name; silent_step|]. intros d1.
    apply silent_bind; [unfold add_profile; silent_step|]. intros d2.
    assert (Hexp : forall n l i d,
               silent (experience_loop requests_post text_error e k n i l d)).
    { intros n l. induction l as [|x l IH]; intros i d; simpl.
      - apply silent_ret.
      - apply silent_bind; [unfold add_experience; silent_step|].
        intros d'. apply IH. }
    assert (Hedu : forall n l i d,
               silent (education_loop requests_post text_error e k n i l d)).
    { intros n l. induction l as [|x l IH]; intros i d; simpl.
      - apply silent_ret.
      - apply silent_bind; [unfold add_education; silent_step|].
        intros d'. apply IH. }
    apply silent_bind.
    { unfold add_experience_section. destruct (experience cv).
      - apply silent_ret.
      - apply silent_bind; [silent_step|]. intros d.
        apply silent_bind; [apply Hexp|]. intros d'. silent_step. }
    intros d3. apply silent_bind.
    { unfold add_education_section. destruct (education cv).
      - apply silent_ret.
      - apply silent_bind; [silent_step|]. intros d.
        apply silent_bind; [apply Hedu|]. intros d'. silent_step. }
    intros d4.
    apply silent_bind; [unfold add_skills; silent_step|]. intros d5.
    unfold add_activities. silent_step. }
  apply Hs.
Qed.

(** X5: with enhancement off (the flag false, or no key) the assembler
    enters nothing and requests nothing, whether it returns or raises, and
    a document it returns holds every text of the record as given. *)
Theorem assembly_without_enhancement_is_verbatim cv e k tr :
  e && truthy k = false ->
  snd (create_cv_document requests_post text_error cv e k tr)
  = tr ++ [Call "create_cv_document"] /\
  (forall doc,
      fst (create_cv_document requests_post text_error cv e k tr) = Ok doc ->
      doc = append (set_margins Document) (layout cv (original_texts cv))).
Proof.
  intros Hoff. split.
  - now apply create_cv_document_off_trace.
  - intros doc Hdoc.
    destruct (create_cv_document requests_post text_error cv e k tr)
      as [r tr'] eqn:H.
    simpl in Hdoc. subst r. apply create_cv_document_run in H.
    destruct H as (t & evs & Ht & -> & _ & _). rewrite Hoff in Ht.
    destruct Ht as (Hp & He & Hd & Hs & Ha).
    apply Forall2_enhanced_off in He, Hd.
    destruct t as [pt ets dts st at_]. simpl in *.
    destruct Hp as [-> | [? _]]; [|discriminate].
    destruct Hs as [-> | [? _]]; [|discriminate].
    destruct Ha as [-> | [? _]]; [|discriminate].
    subst. reflexivity.
Qed.


(** X7: in a document the assembler returns, each of the paragraphs for
    profile, descriptions, details, skills and activities holds the text
    of the record or, with enhancement on, a text without white space at
    either end. *)
Theorem enhanced_texts_are_original_or_stripped cv e k tr doc tr' :
  create_cv_document requests_post text_error cv e k tr = (Ok doc, tr') ->
  exists t, texts_from (e && truthy k) cv t /\ body doc = layout cv t.
Proof.
  intros H. apply create_cv_document_run in H.
  destruct H as (t & evs & Ht & -> & _). exists t. auto.
Qed.

(** X8: every document the assembler returns has one section, with margins
    of half an inch at top and bottom and three quarters of an inch at the
    sides. *)
Theorem margins_are_fixed cv e k tr doc tr' :
  create_cv_document requests_post text_error cv e k tr = (Ok doc, tr') ->
  sections doc
  = [ {| top_margin := 457200; bottom_margin := 457200;
         left_margin := 685800; right_margin := 685800 |} ].
Proof.
  intros H. apply create_cv_document_layout in H.
  destruct H as (t & _ & _ & ->). reflexivity.
Qed.

End Runs.

(** ** Spacers between the entries of a list *)

Lemma exp_paragraphs_block n i exp t :
  exp_paragraphs n i exp t =
  if exp_rendered exp
  then exp_block exp t ++ (if (Z.of_nat i <? Z.of_nat n - 1)%Z then [blank] else [])
  else [].
Proof.
  unfold exp_paragraphs, exp_block. destruct (exp_rendered exp); [|reflexivity].
  now rewrite <- !app_assoc.
Qed.

Lemma edu_paragraphs_block n i edu t :
  edu_paragraphs n i edu t =
  if edu_rendered edu
  then edu_block edu t ++ (if (Z.of_nat i <? Z.of_nat n - 1)%Z then [blank] else [])
  else [].
Proof.
  unfold edu_paragraphs, edu_block. destruct (edu_rendered edu); [|reflexivity].
  now rewrite <- !app_assoc.
Qed.

Lemma exps_paragraphs_join n l : forall i ts,
  forallb exp_rendered l = true -> length ts = length l ->
  i + length l = n ->
  exps_paragraphs n i l ts
  = join [blank] (map (fun p => exp_block (fst p) (snd p)) (combine l ts)).
Proof.
  induction l as [|x l IH]; intros i [|t ts] Hall Hlen Hn; simpl in *;
    try reflexivity; try discriminate.
  apply andb_prop in Hall. destruct Hall as [Hx Hall].
  rewrite exp_paragraphs_block, Hx.
  destruct l as [|y l].
  - destruct ts; [|discriminate]. simpl.
    replace (Z.of_nat i <? Z.of_nat n - 1)%Z with false
      by (symmetry; apply Z.ltb_ge; simpl in Hn; lia).
    now rewrite !app_nil_r.
  - destruct ts as [|t' ts]; [discriminate|].
    replace (Z.of_nat i <? Z.of_nat n - 1)%Z with true
      by (symmetry; apply Z.ltb_lt; simpl in Hn; lia).
    rewrite (IH (S i) (t' :: ts)); [|exact Hall | simpl in *; lia
                                    | simpl in *; lia].
    simpl. now rewrite <- app_assoc.
Qed.

Lemma edus_paragraphs_join n l : forall i ts,
  forallb edu_rendered l = true -> length ts = length l ->
  i + length l = n ->
  edus_paragraphs n i l ts
  = join [blank] (map (fun p => edu_block (fst p) (snd p)) (combine l ts)).
Proof.
  induction l as [|x l IH]; intros i [|t ts] Hall Hlen Hn; simpl in *;
    try reflexivity; try discriminate.
  apply andb_prop in Hall. destruct Hall as [Hx Hall].
  rewrite edu_paragraphs_block, Hx.
  destruct l as [|y l].
  - destruct ts; [|discriminate]. simpl.
    replace (Z.of_nat i <? Z.of_nat n - 1)%Z with false
      by (symmetry; apply Z.ltb_ge; simpl in Hn; lia).
    now rewrite !app_nil_r.
  - destruct ts as [|t' ts]; [discriminate|].
    replace (Z.of_nat i <? Z.of_nat n - 1)%Z with true
      by (symmetry; apply Z.ltb_lt; simpl in Hn; lia).
    rewrite (IH (S i) (t' :: ts)); [|exact Hall | simpl in *; lia
                                    | simpl in *; lia].
    simpl. now rewrite <- app_assoc.
Qed.

Section Spacers.

Variable requests_post : nat -> request -> result response.
Variable text_error : string -> option exn.

(** X9: when every entry of a non-empty experience list passes the
    emptiness check, the section is its heading, the blocks of the entries
    in order with exactly one blank paragraph between each two, and one
    blank paragraph at the end. *)
Theorem experience_entries_are_separated cv e k doc tr doc' tr' :
  experience cv <> [] ->
  forallb exp_rendered (experience cv) = true ->
  add_experience_section requests_post text_error cv e k doc tr
  = (Ok doc', tr') ->
  exists ts,
    length ts = length (experience cv) /\
    body doc'
    = body doc
      ++ heading "Experience"
         :: join [blank]
              (map (fun p => exp_block (fst p) (snd p))
                   (combine (experience cv) ts))
      ++ [blank].
Proof.
  intros Hne Hall H. apply add_experience_section_layout in H.
  destruct H as (ts & Hlen & ->). exists ts. split; [exact Hlen|].
  destruct (experience cv) as [|x l] eqn:E; [congruence|].
  cbn [append body]. rewrite <- E in *.
  now rewrite exps_paragraphs_join.
Qed.

(** X10: the same for the education list. *)
Theorem education_entries_are_separated cv e k doc tr doc' tr' :
  education cv <> [] ->
  forallb edu_rendered (education cv) = true ->
  add_education_section requests_post text_error cv e k doc tr
  = (Ok doc', tr') ->
  exists ts,
    length ts = length (education cv) /\
    body doc'
    = body doc
      ++ heading "Education"
         :: join [blank]
              (map (fun p => edu_block (fst p) (snd p))
                   (combine (education cv) ts))
      ++ [blank].
Proof.
  intros Hne Hall H. apply add_education_section_layout in H.
  destruct H as (ts & Hlen & ->). exists ts. split; [exact Hlen|].
  destruct (education cv) as [|x l] eqn:E; [congruence|].
  cbn [append body]. rewrite <- E in *.
  now rewrite edus_paragraphs_join.
Qed.

End Spacers.

(** ** The page: counters, collected entries, preview, Generate *)

Lemma range_length n : length (range n) = Z.to_nat n.
Proof. unfold range. now rewrite length_map, length_seq. Qed.

Lemma list_buttons_keeps s b :
  (1 <= counter (num_experiences s))%Z -> (1 <= counter (num_education s))%Z ->
  (1 <= counter (num_experiences (fst (list_buttons s b))))%Z /\
  (1 <= counter (num_education (fst (list_buttons s b))))%Z.
Proof.
  intros Hn Hm. unfold list_buttons.
  destruct b; simpl;
    repeat match goal with
           | |- context [(?x >? 1)%Z] =>
               let E := fresh "E" in
               destruct (Z.gtb_spec x 1) as [E|E]; simpl
           end;
    split; lia.
Qed.

Lemma after_clicks_keeps l : forall s,
  (1 <= counter (num_experiences s))%Z -> (1 <= counter (num_education s))%Z ->
  (1 <= counter (num_experiences (after_clicks s l)))%Z /\
  (1 <= counter (num_education (after_clicks s l)))%Z.
Proof.
  induction l as [|b l IH]; intros s Hn Hm; simpl; [auto|].
  destruct (list_buttons_keeps s b Hn Hm) as [Hn' Hm']. now apply IH.
Qed.

(** X11: starting from an empty session state, whatever buttons are
    pressed, both counters stay at 1 or more, so the lists of experience
    and education entries handed to the assembler have as many entries as
    the counters say and are never empty. *)
Theorem counters_stay_positive clicks w :
  let s := after_clicks (Session None None) clicks in
  (1 <= counter (num_experiences s))%Z /\
  (1 <= counter (num_education s))%Z /\
  length (in_experiences (form_of s w))
  = Z.to_nat (counter (num_experiences s)) /\
  length (in_education (form_of s w))
  = Z.to_nat (counter (num_education s)) /\
  in_experiences (form_of s w) <> [] /\
  in_education (form_of s w) <> [].
Proof.
  intros s.
  destruct (after_clicks_keeps clicks (Session None None)) as [Hn Hm];
    [simpl; lia | simpl; lia |]. fold s in Hn, Hm.
  assert (Le : length (in_experiences (form_of s w))
               = Z.to_nat (counter (num_experiences s)))
    by (simpl; unfold collect_experiences; now rewrite length_map, range_length).
  assert (Ld : length (in_education (form_of s w))
               = Z.to_nat (counter (num_education s)))
    by (simpl; unfold collect_education; now rewrite length_map, range_length).
  repeat split; try assumption.
  - intros E. rewrite E in Le. simpl in Le. lia.
  - intros E. rewrite E in Ld. simpl in Ld. lia.
Qed.

(** X12: pressing Add and then Remove under a list brings its counter back
    to what it was, and each of the two presses ends its run in a rerun;
    pressing Remove when the counter is 1 changes nothing and does not
    rerun. *)
Theorem add_then_remove_restores clicks :
  let s := after_clicks (Session None None) clicks in
  counter (num_experiences (after_clicks s [AddExperience; RemoveExperience]))
  = counter (num_experiences s) /\
  counter (num_education (after_clicks s [AddEducation; RemoveEducation]))
  = counter (num_education s) /\
  snd (list_buttons s AddExperience) = true /\
  snd (list_buttons s AddEducation) = true /\
  (counter (num_experiences s) = 1%Z ->
   list_buttons s RemoveExperience
   = ({| num_experiences := Some 1%Z;
         num_education := Some (counter (num_education s)) |}, false)) /\
  (counter (num_education s) = 1%Z ->
   list_buttons s RemoveEducation
   = ({| num_experiences := Some (counter (num_experiences s));
         num_education := Some 1%Z |}, false)).
Proof.
  intros s.
  destruct (after_clicks_keeps clicks (Session None None)) as [Hn Hm];
    [simpl; lia | simpl; lia |]. fold s in Hn, Hm.
  unfold after_clicks, list_buttons; simpl.
  repeat split.
  - destruct (Z.gtb_spec (counter (num_experiences s) + 1) 1); simpl; lia.
  - destruct (Z.gtb_spec (counter (num_education s) + 1) 1); simpl; lia.
  - intros ->. reflexivity.
  - intros ->. reflexivity.
Qed.

Lemma add_then_remove_restores_witness :
  list_buttons (after_clicks (Session None None) [AddEducation])
    RemoveExperience
  = ({| num_experiences := Some 1%Z; num_education := Some 2%Z |}, false).
Proof.
  apply (proj1 (proj2 (proj2 (proj2 (proj2
    (add_then_remove_restores [AddEducation])))))).
  reflexivity.
Defined.

Lemma split_char_length sep s :
  length (split_char sep s) = S (count_char sep s).
Proof.
  induction s as [|c s IH]; simpl; [reflexivity|].
  destruct (Ascii.eqb c sep); simpl; [now rewrite IH|].
  destruct (split_char sep s); simpl in *; [discriminate | exact IH].
Qed.

(** X14: for a non-empty skills field the preview shows as the number of
    skills one more than the number of commas in the field, so the pieces
    left empty between or after commas are counted too. *)
Theorem preview_counts_commas f :
  nonempty (in_skills f) = true ->
  In ("**Skills:** "
      ++ str_of_int (Z.of_nat (S (count_char "," (in_skills f))))
      ++ " skills listed")%string
     (preview f).
Proof.
  intros H. unfold preview. rewrite H, split_char_length.
  do 4 (apply in_or_app; right). apply in_or_app; left. now left.
Qed.

Lemma preview_counts_commas_witness :
  In "**Skills:** 3 skills listed"%string
     (preview {| in_name := "Jane Doe"; in_profile := "Engineer.";
                 in_experiences := [blank_exp]; in_education := [];
                 in_skills := "Go,,SQL"; in_activities := "";
                 in_groq_api_key := ""; in_enhance_with_ai := false |}).
Proof.
  apply (preview_counts_commas
           {| in_name := "Jane Doe"; in_profile := "Engineer.";
              in_experiences := [blank_exp]; in_education := [];
              in_skills := "Go,,SQL"; in_activities := "";
              in_groq_api_key := ""; in_enhance_with_ai := false |}).
  reflexivity.
Defined.

Lemma count_char_app c a b :
  count_char c (a ++ b)%string = count_char c a + count_char c b.
Proof. induction a as [|x a IH]; simpl; [reflexivity|]. rewrite IH. lia. Qed.

Lemma replace_char_removes a b s :
  a <> b -> count_char a (replace_char a b s) = 0.
Proof.
  intros Hab. induction s as [|c s IH]; simpl; [reflexivity|].
  rewrite IH. destruct (Ascii.eqb_spec c a) as [->|Hc].
  - destruct (Ascii.eqb_spec b a); [congruence | reflexivity].
  - destruct (Ascii.eqb_spec c a); [congruence | reflexivity].
Qed.

Lemma collected_lists_nonempty clicks w :
  in_experiences (form_of (after_clicks (Session None None) clicks) w) <> [] /\
  in_education (form_of (after_clicks (Session None None) clicks) w) <> [].
Proof.
  destruct (after_clicks_keeps clicks (Session None None)) as [Hn Hm];
    [simpl; lia | simpl; lia |].
  split; intros E; apply (f_equal (@length _)) in E; simpl in E;
    unfold collect_experiences, collect_education in E;
    rewrite length_map, range_length in E; lia.
Qed.

Section Page.

Variable requests_post : nat -> request -> result response.
Variable text_error : string -> option exn.
Variable docx_save : document -> result (list Byte.byte).
Variable today : string.

Local Notation generate := (on_generate requests_post text_error docx_save today).
Local Notation assemble f :=
  (create_cv_document requests_post text_error (cv_of_form f)
     (in_enhance_with_ai f && nonempty (in_groq_api_key f))
     (Some (in_groq_api_key f))).

(** X15: a document generated from the page always has the headings
    Profile, Experience, Education and Skills & Abilities, in that order,
    also when every experience and education entry is left blank: the two
    lists are never empty.  Activities and Interests follows when that
    field is filled in. *)
Theorem page_documents_have_both_list_headings clicks w e k tr doc tr' :
  let f := form_of (after_clicks (Session None None) clicks) w in
  required_missing f = false ->
  create_cv_document requests_post text_error (cv_of_form f) e k tr
  = (Ok doc, tr') ->
  heading_texts (body doc)
  = ["Profile"; "Experience"; "Education"; "Skills & Abilities"]%string
    ++ (if nonempty (w_activities w) then ["Activities and Interests"%string]
        else []).
Proof.
  intros f Hv H. apply create_cv_document_layout in H.
  destruct H as (t & _ & _ & ->). cbn [append body set_margins Document].
  rewrite app_nil_l, heading_texts_layout.
  destruct (collected_lists_nonempty clicks w) as [He Hd]. fold f in He, Hd.
  apply required_missing_false in Hv. destruct Hv as (_ & Hp & Hs).
  cbn [cv_of_form profile experience education skills activities truthy].
  destruct (in_experiences f); [congruence|].
  destruct (in_education f); [congruence|].
  subst f. cbn [form_of in_profile in_skills in_activities] in *.
  destruct (w_profile w); [congruence|].
  destruct (w_skills w); [congruence|]. reflexivity.
Qed.

(** X16: the Generate handler never raises, whatever the assembler and the
    saving do, and it offers at most one download. *)
Theorem generate_never_raises f tr :
  fst (generate f tr) = Ok tt /\
  (downloads (snd (generate f tr)) = downloads tr \/
   exists ev, downloads (snd (generate f tr)) = downloads tr ++ [ev]).
Proof.
  destruct (required_missing f) eqn:Hv.
  - unfold on_generate. rewrite Hv. simpl.
    rewrite downloads_app. simpl. rewrite app_nil_r. auto.
  - rewrite on_generate_valid by exact Hv.
    pose proof (assemble_no_download requests_post text_error f tr) as Hd.
    destruct (assemble f tr) as [[doc|x] tr1]; simpl in Hd.
    + destruct (docx_save doc) as [data|x]; simpl.
      * split; [reflexivity|]. right. eexists.
        rewrite !downloads_app, Hd.
        destruct (in_enhance_with_ai f && nonempty (in_groq_api_key f));
          reflexivity.
      * rewrite downloads_app, Hd. simpl. rewrite app_nil_r. auto.
    + simpl. rewrite downloads_app, Hd. simpl. rewrite app_nil_r. auto.
Qed.

(** X17: when the assembler returns a document and saving it returns its
    bytes, exactly one download is offered, carrying those bytes under the
    name made of the name with "_" for each space, "_CV_", the date and
    ".docx". *)
Theorem download_carries_saved_document f tr doc tr1 data :
  required_missing f = false ->
  assemble f tr = (Ok doc, tr1) -> docx_save doc = Ok data ->
  downloads (snd (generate f tr))
  = downloads tr
    ++ [ StDownload "📥 Download CV" data
           (replace_char " " "_" (in_name f) ++ "_CV_" ++ today ++ ".docx")%string
           "application/vnd.openxmlformats-officedocument.wordprocessingml.document" ].
Proof.
  intros Hv Ha Hs. rewrite on_generate_valid by exact Hv.
  pose proof (assemble_no_download requests_post text_error f tr) as Hd. rewrite Ha in *. rewrite Hs.
  simpl in *. rewrite !downloads_app, Hd.
  destruct (in_enhance_with_ai f && nonempty (in_groq_api_key f));
    reflexivity.
Qed.

(** X18: when a document is assembled and saved, the name of the file the
    handler offers for download holds no space, whatever name was entered,
    provided the date holds none. *)
Theorem file_name_has_no_space f tr doc tr1 data :
  count_char " " today = 0 ->
  required_missing f = false ->
  assemble f tr = (Ok doc, tr1) -> docx_save doc = Ok data ->
  exists label file_name mime,
    downloads (snd (generate f tr))
    = downloads tr ++ [StDownload label data file_name mime] /\
    count_char " " file_name = 0.
Proof.
  intros Ht Hv Ha Hs.
  rewrite (generation_delivers_saved_bytes requests_post text_error docx_save
             today f tr doc tr1 data Hv Ha Hs).
  do 3 eexists. split; [reflexivity|].
  rewrite !count_char_app, Ht, replace_char_removes by discriminate.
  reflexivity.
Qed.

(** The description paragraph of an entry in the layout of the texts as
    given. *)
Lemma In_description_paragraph n exp d l : forall i,
  In exp l -> description exp = Some d -> d <> ""%string ->
  In (text_paragraph d None)
     (exps_paragraphs n i l (map (fun x => item (description x)) l)).
Proof.
  induction l as [|x l IH]; intros i Hin Hd Hne; [contradiction|].
  simpl. apply in_or_app. destruct Hin as [-> | Hin].
  - left. unfold exp_paragraphs, exp_rendered. rewrite Hd. simpl.
    destruct d as [|a d]; [congruence|]. simpl.
    rewrite !orb_true_r.
    apply in_or_app; right. apply in_or_app; right. now left.
  - right. now apply IH.
Qed.

(** X13: when no experience entry has a company or a position the preview
    shows no Experience line, yet an entry that has a description is
    rendered: with enhancement off the document holds the Experience
    heading and that description as a paragraph. *)
Theorem preview_omits_described_entries f e k tr doc tr' exp d :
  (forall x, In x (in_experiences f) ->
             truthy (company x) = false /\ truthy (position x) = false) ->
  In exp (in_experiences f) ->
  description exp = Some d -> d <> ""%string ->
  e && truthy k = false ->
  create_cv_document requests_post text_error (cv_of_form f) e k tr
  = (Ok doc, tr') ->
  (forall line, In line (preview f) ->
                String.prefix "**Experience:**" line = false) /\
  In (heading "Experience") (body doc) /\
  In (text_paragraph d None) (body doc).
Proof.
  intros Hnone Hin Hd Hne Hoff H. split.
  - assert (Hex : existsb exp_previewed (in_experiences f) = false).
    { destruct (existsb exp_previewed (in_experiences f)) eqn:E;
        [|reflexivity].
      apply existsb_exists in E. destruct E as (x & Hx & Hp).
      destruct (Hnone x Hx) as [Hc Hpos]. unfold exp_previewed in Hp.
      rewrite Hc, Hpos in Hp. discriminate. }
    intros line Hline. unfold preview in Hline. rewrite Hex in Hline.
    repeat (apply in_app_or in Hline; destruct Hline as [Hline|Hline]);
      repeat match type of Hline with
             | In _ (if ?c then _ else _) => destruct c
             end;
      simpl in Hline; try contradiction;
      destruct Hline as [<-|[]]; reflexivity.
  - apply create_cv_document_run in H.
    destruct H as (t & evs & Ht & -> & _ & _). rewrite Hoff in Ht.
    destruct Ht as (_ & He & _). apply Forall2_enhanced_off in He.
    cbn [append body set_margins Document]. rewrite app_nil_l.
    unfold layout. cbn [cv_of_form experience].
    destruct (in_experiences f) as [|x l] eqn:E; [contradiction|].
    rewrite <- E in *. cbn [cv_of_form experience] in He. rewrite He.
    split.
    + do 2 (apply in_or_app; right). apply in_or_app; left. now left.
    + do 2 (apply in_or_app; right). apply in_or_app; left. right.
      apply in_or_app; left.
      apply In_description_paragraph with exp; assumption.
Qed.

Lemma on_generate_off f tr :
  in_enhance_with_ai f = false \/ in_groq_api_key f = ""%string ->
  exists evs,
    snd (generate f tr) = tr ++ evs /\
    posts evs = 0 /\ calls "enhance_with_groq" evs = 0 /\ warnings evs = 0.
Proof.
  intros Hoff.
  assert (Hoff' : in_enhance_with_ai f && nonempty (in_groq_api_key f)
                  && truthy (Some (in_groq_api_key f)) = false).
  { destruct Hoff as [-> | ->]; [reflexivity | now rewrite andb_false_r]. }
  destruct (required_missing f) eqn:Hv.
  - unfold on_generate. rewrite Hv. simpl. eexists. split; [reflexivity|].
    repeat split.
  - rewrite on_generate_valid by exact Hv.
    pose proof (create_cv_document_off_trace requests_post text_error
                  (cv_of_form f) _ _ tr Hoff') as Htr.
    destruct (assemble f tr) as [[doc|x] tr1]; simpl in Htr; subst tr1.
    + destruct (docx_save doc) as [data|x]; simpl;
        rewrite <- ?app_assoc; eexists; (split; [reflexivity|]).
      * destruct (in_enhance_with_ai f && nonempty (in_groq_api_key f));
          repeat split.
      * repeat split.
    + simpl. rewrite <- app_assoc. eexists. split; [reflexivity|].
      repeat split.
Qed.

(** X19: when the enhancement box is not ticked or no key is entered, a
    run of the page makes no request and does not enter the enhancer,
    whatever button is pressed; when the box is ticked and no key is
    entered the run starts with the warning of the sidebar. *)
Theorem page_without_key_requests_nothing s w pressed tr :
  w_enhance_with_ai w = false \/ w_groq_api_key w = ""%string ->
  posts (snd (snd (script requests_post text_error docx_save today
                     s w pressed) tr)) = posts tr /\
  calls "enhance_with_groq"
    (snd (snd (script requests_post text_error docx_save today
                 s w pressed) tr))
  = calls "enhance_with_groq" tr /\
  (w_enhance_with_ai w = true ->
   exists rest,
     snd (snd (script requests_post text_error docx_save today
                 s w pressed) tr)
     = tr ++ StWarning "Please enter your Groq API key to use AI enhancement"
          :: rest).
Proof.
  intros Hoff. unfold script.
  destruct (list_buttons s pressed) as [s' rerun]. cbn [snd].
  assert (Hgen : exists evs,
             snd ((if rerun then ret tt
                   else match pressed with
                        | GenerateCV => generate (form_of s' w)
                        | _ => ret tt
                        end)
                    (snd (sidebar w tr)))
             = snd (sidebar w tr) ++ evs /\
             posts evs = 0 /\ calls "enhance_with_groq" evs = 0).
  { assert (Hnil : forall t : trace, exists evs,
               snd (ret tt t) = t ++ evs /\
               posts evs = 0 /\ calls "enhance_with_groq" evs = 0)
      by (intros t; exists []; simpl; now rewrite app_nil_r).
    destruct rerun; [apply Hnil|].
    destruct pressed; try apply Hnil.
    destruct (on_generate_off (form_of s' w) (snd (sidebar w tr)) Hoff)
      as (evs & E & P & C & _).
    exists evs. auto. }
  destruct Hgen as (evs & E & P & C).
  assert (Hbind : forall k : M unit,
             snd ((sidebar w ;;; k) tr) = snd (k (snd (sidebar w tr)))).
  { intros k. unfold bind, sidebar.
    destruct (w_enhance_with_ai w && negb (nonempty (w_groq_api_key w)));
      reflexivity. }
  rewrite Hbind, E.
  unfold sidebar.
  destruct Hoff as [Hb | Hk].
  - rewrite Hb. simpl. rewrite posts_app, calls_app, P, C.
    repeat split; try lia; try discriminate.
  - rewrite Hk. simpl. rewrite andb_true_r.
    destruct (w_enhance_with_ai w); simpl.
    + rewrite <- app_assoc, !posts_app, !calls_app, P, C.
      unfold posts at 2, calls at 2. simpl.
      repeat split; try lia. intros _. eexists. reflexivity.
    + rewrite posts_app, calls_app, P, C.
      repeat split; try lia; try discriminate.
Qed.

End Page.

(** ** What the assembler can raise *)

Section Raising.

Variable requests_post : nat -> request -> result response.
Variable text_error : string -> option exn.

Local Notation raises P := (raises_on text_error P).


















End Raising.

(** ** Validation and white space *)

Section Validation.

Variable requests_post : nat -> request -> result response.
Variable text_error : string -> option exn.
Variable docx_save : document -> result (list Byte.byte).
Variable today : string.

Local Notation generate := (on_generate requests_post text_error docx_save today).
Local Notation assemble f :=
  (create_cv_document requests_post text_error (cv_of_form f)
     (in_enhance_with_ai f && nonempty (in_groq_api_key f))
     (Some (in_groq_api_key f))).
Local Notation enhancing f :=
  (in_enhance_with_ai f && nonempty (in_groq_api_key f)
   && truthy (Some (in_groq_api_key f))).


End Validation.



Lemma substring_prefix n s :
  exists rest, s = (substring 0 n s ++ rest)%string /\
               String.length (substring 0 n s) = Nat.min n (String.length s).
Proof.
  revert n. induction s as [|c s IH]; intros [|n]; simpl.
  - exists ""%string. auto.
  - exists ""%string. auto.
  - exists (String c s). auto.
  - destruct (IH n) as (rest & E & L). exists rest.
    split; [now rewrite <- E | now rewrite L].
Qed.

(** X20: for a non-empty profile the preview shows its first 100
    characters, or all of it when it is shorter, always followed by
    "...". *)
Theorem preview_shows_profile_excerpt f :
  nonempty (in_profile f) = true ->
  exists excerpt rest,
    in_profile f = (excerpt ++ rest)%string /\
    String.length excerpt = Nat.min 100 (String.length (in_profile f)) /\
    In ("**Profile:** " ++ excerpt ++ "...")%string (preview f).
Proof.
  intros H. destruct (substring_prefix 100 (in_profile f)) as (rest & E & L).
  exists (substring 0 100 (in_profile f)), rest.
  split; [exact E|]. split; [exact L|].
  unfold preview. rewrite H.
  apply in_or_app; right. apply in_or_app; left. now left.
Qed.

Lemma preview_shows_profile_excerpt_witness :
  exists excerpt rest,
    "Engineer."%string = (excerpt ++ rest)%string /\
    String.length excerpt = Nat.min 100 (String.length "Engineer.") /\
    In ("**Profile:** " ++ excerpt ++ "...")%string
       (preview (form_of (Session None None) jane_widgets)).
Proof.
  apply (preview_shows_profile_excerpt
           (form_of (Session None None) jane_widgets)).
  reflexivity.
Defined.


(** ** The further properties at concrete inputs *)

Lemma assembly_without_enhancement_is_verbatim_witness :
  true && truthy (Some ""%string) = false /\
  snd (create_cv_document (net_answers "Better.") accept_all
         (jane [described "Built the billing service."])
         true (Some ""%string) [])
  = [] ++ [Call "create_cv_document"].
Proof.
  split; [reflexivity|].
  apply (assembly_without_enhancement_is_verbatim (net_answers "Better.")
           accept_all (jane [described "Built the billing service."])
           true (Some ""%string) []).
  reflexivity.
Defined.


Lemma enhanced_texts_are_original_or_stripped_witness :
  exists t,
    texts_from (true && truthy (Some "gsk_1"%string))
      (jane [described "Built the billing service."]) t /\
    body jane_enhanced_document
    = layout (jane [described "Built the billing service."]) t.
Proof.
  apply (enhanced_texts_are_original_or_stripped (net_answers "Better.")
           accept_all (jane [described "Built the billing service."])
           true (Some "gsk_1"%string) [] jane_enhanced_document
           (snd (create_cv_document (net_answers "Better.") accept_all
                   (jane [described "Built the billing service."])
                   true (Some "gsk_1"%string) []))).
  vm_compute. reflexivity.
Defined.

Lemma margins_are_fixed_witness :
  sections jane_document
  = [ {| top_margin := 457200; bottom_margin := 457200;
         left_margin := 685800; right_margin := 685800 |} ].
Proof.
  apply (margins_are_fixed net_down accept_all (jane []) false None []
           jane_document [Call "create_cv_document"]).
  reflexivity.
Defined.

Lemma experience_entries_are_separated_witness :
  exists ts,
    length ts = 2 /\
    body (returned
            (add_experience_section net_down accept_all
               (jane [dev_at_acme; described "Built the billing service."])
               false None Document []))
    = body Document
      ++ heading "Experience"
         :: join [blank]
              (map (fun p => exp_block (fst p) (snd p))
                   (combine [dev_at_acme;
                             described "Built the billing service."] ts))
      ++ [blank].
Proof.
  apply (experience_entries_are_separated net_down accept_all
           (jane [dev_at_acme; described "Built the billing service."])
           false None Document []
           (returned
              (add_experience_section net_down accept_all
                 (jane [dev_at_acme; described "Built the billing service."])
                 false None Document []))
           []);
    [discriminate | reflexivity | reflexivity].
Defined.

Lemma education_entries_are_separated_witness :
  exists ts,
    length ts = 2 /\
    body (returned
            (add_education_section net_down accept_all
               {| name := Some "Jane Doe"%string; profile := None;
                  experience := [];
                  education :=
                    [ Edu (Some "BSc") (Some "Delft") (Some "2016") (Some "");
                      Edu (Some "MSc") (Some "Delft") (Some "2018")
                          (Some "Cum laude")]%string;
                  skills := None; activities := None |}
               false None Document []))
    = body Document
      ++ heading "Education"
         :: join [blank]
              (map (fun p => edu_block (fst p) (snd p))
                   (combine
                      [ Edu (Some "BSc") (Some "Delft") (Some "2016") (Some "");
                        Edu (Some "MSc") (Some "Delft") (Some "2018")
                            (Some "Cum laude")]%string ts))
      ++ [blank].
Proof.
  apply (education_entries_are_separated net_down accept_all
           {| name := Some "Jane Doe"%string; profile := None;
              experience := [];
              education :=
                [ Edu (Some "BSc") (Some "Delft") (Some "2016") (Some "");
                  Edu (Some "MSc") (Some "Delft") (Some "2018")
                      (Some "Cum laude")]%string;
              skills := None; activities := None |}
           false None Document []
           (returned
              (add_education_section net_down accept_all
                 {| name := Some "Jane Doe"%string; profile := None;
                    experience := [];
                    education :=
                      [ Edu (Some "BSc") (Some "Delft") (Some "2016") (Some "");
                        Edu (Some "MSc") (Some "Delft") (Some "2018")
                            (Some "Cum laude")]%string;
                    skills := None; activities := None |}
                 false None Document []))
           []);
    [discriminate | reflexivity | reflexivity].
Defined.

Lemma page_documents_have_both_list_headings_witness :
  required_missing (form_of (after_clicks (Session None None) []) jane_widgets)
  = false /\
  heading_texts
    (body (returned
             (create_cv_document net_down accept_all
                (cv_of_form (form_of (after_clicks (Session None None) [])
                               jane_widgets))
                false None [])))
  = ["Profile"; "Experience"; "Education"; "Skills & Abilities"]%string ++ [].
Proof.
  split; [reflexivity|].
  apply (page_documents_have_both_list_headings net_down accept_all []
           jane_widgets false None []
           (returned
              (create_cv_document net_down accept_all
                 (cv_of_form (form_of (after_clicks (Session None None) [])
                                jane_widgets))
                 false None []))
           [Call "create_cv_document"]);
    reflexivity.
Defined.

Lemma download_carries_saved_document_witness :
  downloads
    (snd (on_generate net_down accept_all save_ok "20240101"
            (form_of (Session None None) jane_widgets) []))
  = downloads []
    ++ [ StDownload "📥 Download CV" (repeat Byte.x00 12)
           "Jane_Doe_CV_20240101.docx"
           "application/vnd.openxmlformats-officedocument.wordprocessingml.document" ].
Proof.
  apply (download_carries_saved_document net_down accept_all save_ok
           "20240101" (form_of (Session None None) jane_widgets) []
           (returned
              (create_cv_document net_down accept_all
                 (cv_of_form (form_of (Session None None) jane_widgets))
                 false (Some ""%string) []))
           [Call "create_cv_document"]);
    reflexivity.
Defined.

Lemma file_name_has_no_space_witness :
  count_char " " "20240101" = 0 /\
  exists label file_name mime,
    downloads
      (snd (on_generate net_down accept_all save_ok "20240101"
              (form_of (Session None None) jane_widgets) []))
    = downloads [] ++ [StDownload label (repeat Byte.x00 12) file_name mime] /\
    count_char " " file_name = 0.
Proof.
  split; [reflexivity|].
  apply (file_name_has_no_space net_down accept_all save_ok "20240101"
           (form_of (Session None None) jane_widgets) []
           (returned
              (create_cv_document net_down accept_all
                 (cv_of_form (form_of (Session None None) jane_widgets))
                 false (Some ""%string) []))
           [Call "create_cv_document"]);
    reflexivity.
Defined.

Lemma preview_omits_described_entries_witness :
  preview described_only
  = ["**Name:** Jane Doe"; "**Profile:** Engineer...."; 
     "**Skills:** 2 skills listed"]%string /\
  In (text_paragraph "Built the billing service." None)
     (body (returned
              (create_cv_document net_down accept_all
                 (cv_of_form described_only) false None []))).
Proof.
  split; [reflexivity|].
  apply (preview_omits_described_entries net_down accept_all described_only
           false None []
           (returned
              (create_cv_document net_down accept_all
                 (cv_of_form described_only) false None []))
           [Call "create_cv_document"]
           (Exp (Some "") (Some "") (Some "")
                (Some "Built the billing service."))%string
           "Built the billing service."%string).
  - intros x [<-|[]]. split; reflexivity.
  - left. reflexivity.
  - reflexivity.
  - discriminate.
  - reflexivity.
  - reflexivity.
Defined.

Lemma page_without_key_requests_nothing_witness :
  w_groq_api_key ticked_without_key = ""%string /\
  posts (snd (snd (script net_down accept_all save_ok "20240101"
                     (Session None None) ticked_without_key GenerateCV) []))
  = posts [].
Proof.
  split; [reflexivity|].
  apply (page_without_key_requests_nothing net_down accept_all save_ok
           "20240101" (Session None None) ticked_without_key GenerateCV []).
  right. reflexivity.
Defined.
